(** * Vector (C02ObjectOrientedProgramming/Reinforcement/r14.py)

    A shallow embedding of the [Vector] class and of the part of the Python
    object model its methods rely on, followed by the properties of the class.

    Conventions of the embedding.
    - Python values that can be a coordinate are the [scalar]s: [None], [bool],
      [int] (unbounded, [Z]), [float] (IEEE 754 binary64, the kernel's
      primitive floats) and [str] (ASCII text).  A coordinate that is itself a
      container or a [Vector] is outside the model.
    - A [Vector] instance is a heap location holding its private [_coords]
      list; the heap only grows (there is no garbage collection to observe).
    - Every method is a computation in the monad [M]: it reads and writes the
      heap and either returns a value or raises an exception.
    - The interpreter is CPython 3.11 on a 64-bit build, with its defaults:
      an index-sized integer lies in [[-2^63, 2^63 - 1]]
      ([sys.maxsize = 2^63 - 1]), the text of an [int] has at most 4300
      digits ([sys.get_int_max_str_digits()]), and assertions are enabled
      (no [-O]).
    - Memory is unbounded: [MemoryError] is outside the model, and so is the
      refusal of a list longer than [sys.maxsize], a list that no
      interpreter holds. *)

From Stdlib Require Import ZArith String Ascii List Floats Lia Bool.
From Stdlib Require DecimalString.
From stdpp Require Import base list.

Local Open Scope string_scope.
Local Open Scope list_scope.
Local Open Scope Z_scope.

(** ** The Python substrate *)

Module Py.

(** The exception classes that the class or the operations it calls can raise.
    None of them is a subclass of another one. [SystemError] is what the model
    answers to a dangling reference, which no Python program can build. *)
Inductive exn_class :=
| TypeError | ValueError | IndexError | AssertionError
| AttributeError | OverflowError | SystemError.

(** The text of an exception: the one the source gives, or the interpreter's
    own wording, which the model does not spell out. *)
Inductive message :=
| Msg (s : string)
| Builtin.

Record exn := Exn { exn_cls : exn_class; exn_msg : message }.

Definition exn_class_eqb (c1 c2 : exn_class) : bool :=
  match c1, c2 with
  | TypeError, TypeError | ValueError, ValueError | IndexError, IndexError
  | AssertionError, AssertionError | AttributeError, AttributeError
  | OverflowError, OverflowError | SystemError, SystemError => true
  | _, _ => false
  end.

(** [isinstance(e, c)] for an exception [e]: the classes are unrelated. *)
Definition exn_isinstance (e : exn) (c : exn_class) : bool :=
  exn_class_eqb (exn_cls e) c.

Inductive result (A : Type) :=
| Ok (a : A)
| Raise (e : exn).
Arguments Ok {A} a.
Arguments Raise {A} e.

Definition result_bind {A B} (r : result A) (k : A -> result B) : result B :=
  match r with
  | Ok a => k a
  | Raise e => Raise e
  end.

Definition result_map {A B} (f : A -> B) (r : result A) : result B :=
  result_bind r (fun a => Ok (f a)).

Definition is_Ok {A} (r : result A) : bool :=
  match r with Ok _ => true | Raise _ => false end.

(** What a coordinate can be. *)
Inductive scalar :=
| SNone
| SBool (b : bool)
| SInt (n : Z)
| SFloat (f : float)
| SStr (s : string).

Abbreviation loc := nat.

(** What an operand can be: a scalar, a plain list of scalars, or a reference
    to a [Vector] instance. *)
Inductive value :=
| VScalar (s : scalar)
| VList (l : list scalar)
| VVec (v : loc).

(** [type(x).__name__] *)
Definition type_name (x : value) : string :=
  match x with
  | VScalar SNone => "NoneType"
  | VScalar (SBool _) => "bool"
  | VScalar (SInt _) => "int"
  | VScalar (SFloat _) => "float"
  | VScalar (SStr _) => "str"
  | VList _ => "list"
  | VVec _ => "__main__.Vector"
  end.

(** [str(type(x))], as an f-string renders [{type(x)}]. *)
Definition type_repr (x : value) : string :=
  ("<class '" ++ type_name x ++ "'>")%string.

(** *** Numbers *)

(** [bool] is a subclass of [int]; arithmetic sees [False] and [True] as 0 and 1. *)
Inductive num :=
| NInt (n : Z)
| NFloat (f : float).

Definition to_num (s : scalar) : option num :=
  match s with
  | SBool b => Some (NInt (Z.b2z b))
  | SInt n => Some (NInt n)
  | SFloat f => Some (NFloat f)
  | SNone | SStr _ => None
  end.

Definition of_num (n : num) : scalar :=
  match n with
  | NInt n => SInt n
  | NFloat f => SFloat f
  end.

(** [float(n)] for an [int]: the nearest double, ties to even;
    [OverflowError] when that is beyond the largest finite double. *)
Definition float_of_int (n : Z) : result float :=
  let f := SF2Prim (binary_normalize prec emax n 0 false) in
  if PrimFloat.is_infinity f then Raise (Exn OverflowError Builtin) else Ok f.

(** A binary arithmetic operator on two numbers: exact on two [int]s, the IEEE
    operation on two [float]s, and on a mixed pair the [int] is converted first. *)
Definition num_binop (fz : Z -> Z -> Z) (ff : float -> float -> float)
    (a b : num) : result num :=
  match a, b with
  | NInt x, NInt y => Ok (NInt (fz x y))
  | NFloat x, NFloat y => Ok (NFloat (ff x y))
  | NInt x, NFloat y => result_map (fun x' => NFloat (ff x' y)) (float_of_int x)
  | NFloat x, NInt y => result_map (fun y' => NFloat (ff x y')) (float_of_int y)
  end.

(** The exact order between an [int] and a [float]; [None] when the float is
    a NaN. A finite float is [(-1)^s * m * 2^e]. *)
Definition Z_compare_float (n : Z) (f : float) : option comparison :=
  match Prim2SF f with
  | S754_nan => None
  | S754_infinity s => Some (if s then Gt else Lt)
  | S754_zero _ => Some (n ?= 0)
  | S754_finite s m e =>
      let sm := if s then Z.neg m else Z.pos m in
      Some (if 0 <=? e then n ?= sm * 2 ^ e else n * 2 ^ (- e) ?= sm)
  end.

Definition float_compare (x y : float) : option comparison :=
  match PrimFloat.compare x y with
  | FEq => Some Eq
  | FLt => Some Lt
  | FGt => Some Gt
  | FNotComparable => None
  end.

Definition num_compare (a b : num) : option comparison :=
  match a, b with
  | NInt x, NInt y => Some (x ?= y)
  | NFloat x, NFloat y => float_compare x y
  | NInt x, NFloat y => Z_compare_float x y
  | NFloat x, NInt y => option_map CompOpp (Z_compare_float y x)
  end.

(** *** Operators on scalars *)

Definition unsupported {A} : result A := Raise (Exn TypeError Builtin).

(** The bounds of an index-sized integer ([Py_ssize_t]). *)
Definition ssize_min : Z := -9223372036854775808.
Definition ssize_max : Z := 9223372036854775807.

Definition overflow {A} : result A := Raise (Exn OverflowError Builtin).

(** [s * n] for a [str] and an [int]: the count has to fit an index-sized
    integer, and a negative count gives the empty [str]. *)
Definition str_repeat (s : string) (n : Z) : result string :=
  if (n <? ssize_min) || (ssize_max <? n) then overflow
  else Ok (String.concat "" (repeat s (Z.to_nat n))).

(** [[x] * n] for an [int]: a count below the index-sized integers raises,
    any other negative count gives the empty list. (A count above them also
    raises in the interpreter; the list it asks for is one that cannot be
    held, and the model, as for memory, builds it.) *)
Definition list_repeat (x : scalar) (n : Z) : result (list scalar) :=
  if n <? ssize_min then overflow
  else Ok (replicate (Z.to_nat n) x).

(** [a + b] *)
Definition py_add (a b : scalar) : result scalar :=
  match to_num a, to_num b with
  | Some x, Some y => result_map of_num (num_binop Z.add PrimFloat.add x y)
  | _, _ =>
      match a, b with
      | SStr s, SStr t => Ok (SStr (s ++ t)%string)
      | _, _ => unsupported
      end
  end.

(** [a - b] *)
Definition py_sub (a b : scalar) : result scalar :=
  match to_num a, to_num b with
  | Some x, Some y => result_map of_num (num_binop Z.sub PrimFloat.sub x y)
  | _, _ => unsupported
  end.

(** [a * b] *)
Definition py_mul (a b : scalar) : result scalar :=
  match to_num a, to_num b with
  | Some x, Some y => result_map of_num (num_binop Z.mul PrimFloat.mul x y)
  | Some (NInt n), None | None, Some (NInt n) =>
      match a, b with
      | SStr s, _ | _, SStr s => result_map SStr (str_repeat s n)
      | _, _ => unsupported
      end
  | _, _ => unsupported
  end.

(** [- a] *)
Definition py_neg (a : scalar) : result scalar :=
  match to_num a with
  | Some (NInt n) => Ok (SInt (- n))
  | Some (NFloat f) => Ok (SFloat (- f)%float)
  | None => unsupported
  end.

(** [a == b]: numbers by value, strings by content, [None] with itself. *)
Definition py_eq (a b : scalar) : bool :=
  match to_num a, to_num b with
  | Some x, Some y =>
      match num_compare x y with Some Eq => true | _ => false end
  | _, _ =>
      match a, b with
      | SNone, SNone => true
      | SStr s, SStr t => String.eqb s t
      | _, _ => false
      end
  end.

(** [a < b] and [a <= b]: defined between numbers and between strings. *)
Definition py_lt (a b : scalar) : result bool :=
  match to_num a, to_num b with
  | Some x, Some y =>
      Ok (match num_compare x y with Some Lt => true | _ => false end)
  | _, _ =>
      match a, b with
      | SStr s, SStr t => Ok (String.ltb s t)
      | _, _ => unsupported
      end
  end.

Definition py_le (a b : scalar) : result bool :=
  match to_num a, to_num b with
  | Some x, Some y =>
      Ok (match num_compare x y with Some Lt | Some Eq => true | _ => false end)
  | _, _ =>
      match a, b with
      | SStr s, SStr t => Ok (String.leb s t)
      | _, _ => unsupported
      end
  end.

(** [a == b] and [a < b], [a <= b] on two lists: the first pair of items that
    are not equal decides, else the lengths do. The interpreter takes two
    items that are one and the same object as equal without calling [==];
    on scalars that only shows on a NaN object that both lists hold (a list
    compared with itself or with a copy of it), where the interpreter answers
    that the items are equal and these functions, having no identity for
    scalars, that they are not. They are exact on lists without NaN and on
    lists whose NaN are distinct objects, such as the results of arithmetic;
    the statements about [==], [<] and [<=] below stay within those. *)
Fixpoint list_eq (a b : list scalar) : bool :=
  match a, b with
  | [], [] => true
  | x :: a', y :: b' => py_eq x y && list_eq a' b'
  | _, _ => false
  end.

Fixpoint list_lt (a b : list scalar) : result bool :=
  match a, b with
  | _, [] => Ok false
  | [], _ :: _ => Ok true
  | x :: a', y :: b' => if py_eq x y then list_lt a' b' else py_lt x y
  end.

Fixpoint list_le (a b : list scalar) : result bool :=
  match a, b with
  | [], _ => Ok true
  | _ :: _, [] => Ok false
  | x :: a', y :: b' => if py_eq x y then list_le a' b' else py_le x y
  end.

(** *** Sequences: indices *)

(** The position a list of length [n] gives to index [j]: a negative index
    counts from the end. *)
Definition list_index (n : nat) (j : Z) : option nat :=
  let j' := if j <? 0 then j + Z.of_nat n else j in
  if (j' <? 0) || (Z.of_nat n <=? j') then None else Some (Z.to_nat j').

Definition index_error {A} : result A := Raise (Exn IndexError Builtin).

(** [l[j]] *)
Definition list_getitem (l : list scalar) (j : Z) : result scalar :=
  match list_index (length l) j with
  | Some i => match l !! i with Some x => Ok x | None => index_error end
  | None => index_error
  end.

(** [l[j] = x], giving the list after the assignment. *)
Definition list_setitem (l : list scalar) (j : Z) (x : scalar)
    : result (list scalar) :=
  match list_index (length l) j with
  | Some i => Ok (<[i:=x]> l)
  | None => index_error
  end.

(** The characters of a [str], each a [str] of length one. *)
Fixpoint str_chars (s : string) : list scalar :=
  match s with
  | EmptyString => []
  | String c s' => SStr (String c EmptyString) :: str_chars s'
  end.

(** *** The heap, and computations over it *)

Abbreviation heap := (list (list scalar)).

Definition M (A : Type) : Type := heap -> result A * heap.

#[export] Instance M_ret : MRet M := fun A a h => (Ok a, h).

#[export] Instance M_bind : MBind M := fun A B k m h =>
  match m h with
  | (Ok a, h') => k a h'
  | (Raise e, h') => (Raise e, h')
  end.

Definition raise {A} (e : exn) : M A := fun h => (Raise e, h).

Definition lift {A} (r : result A) : M A := fun h => (r, h).

(** [try: m  except Exception as e: handler e] *)
Definition try_except {A} (m : M A) (handler : exn -> M A) : M A := fun h =>
  match m h with
  | (Ok a, h') => (Ok a, h')
  | (Raise e, h') => handler e h'
  end.

(** A new instance with the given [_coords]. *)
Definition alloc (cs : list scalar) : M loc := fun h =>
  (Ok (length h), h ++ [cs]).

Definition dangling {A} : M A := raise (Exn SystemError Builtin).

(** [v._coords] *)
Definition get_coords (v : loc) : M (list scalar) := fun h =>
  match h !! v with
  | Some cs => (Ok cs, h)
  | None => dangling h
  end.

(** The list [v._coords] becomes [cs] (an assignment to one of its items). *)
Definition set_coords (v : loc) (cs : list scalar) : M unit := fun h =>
  match h !! v with
  | Some _ => (Ok tt, <[v:=cs]> h)
  | None => dangling h
  end.

(** [for j in js: body j] *)
Fixpoint for_each {A} (js : list A) (body : A -> M unit) : M unit :=
  match js with
  | [] => mret tt
  | j :: js' => body j ;; for_each js' body
  end.

(** [range(n)] *)
Definition range (n : nat) : list Z := Z.of_nat <$> seq 0 n.

End Py.

(** ** The class *)

Module Vector.
Import Py.

(** [def __len__(self): return len(self._coords)] *)
Definition __len__ (self : loc) : M nat :=
  cs ← get_coords self;
  mret (length cs).

(** [def __getitem__(self, j): return self._coords[j]] *)
Definition __getitem__ (self : loc) (j : Z) : M scalar :=
  cs ← get_coords self;
  lift (list_getitem cs j).

(** [def __setitem__(self, j, val): self._coords[j] = val] *)
Definition __setitem__ (self : loc) (j : Z) (val : scalar) : M unit :=
  cs ← get_coords self;
  cs' ← lift (list_setitem cs j val);
  set_coords self cs'.

(** [len(x)] *)
Definition py_len (x : value) : M nat :=
  match x with
  | VVec v => __len__ v
  | VList l => mret (length l)
  | VScalar (SStr s) => mret (String.length s)
  | VScalar _ => lift unsupported
  end.

(** [x[j]] *)
Definition py_getitem (x : value) (j : Z) : M scalar :=
  match x with
  | VVec v => __getitem__ v j
  | VList l => lift (list_getitem l j)
  | VScalar (SStr s) => lift (list_getitem (str_chars s) j)
  | VScalar _ => lift unsupported
  end.

(** The class has [__getitem__] and no [__iter__], so the interpreter iterates
    over an instance by asking for the items 0, 1, 2, ... until [IndexError].
    [js] are the indices to try: [iter_vector] gives one more than there are
    coordinates, and the walk stops on the last one. *)
Fixpoint iter_getitem (getitem : Z -> M scalar) (js : list Z) : M (list scalar) :=
  match js with
  | [] => mret []
  | j :: js' =>
      r ← try_except (x ← getitem j; mret (Some x))
            (fun e => if exn_isinstance e IndexError then mret None else raise e);
      match r with
      | None => mret []
      | Some x => xs ← iter_getitem getitem js'; mret (x :: xs)
      end
  end.

Definition iter_vector (self : loc) : M (list scalar) :=
  n ← __len__ self;
  iter_getitem (__getitem__ self) (range (S n)).

(** The items of [for val in x]. *)
Definition py_iter (x : value) : M (list scalar) :=
  match x with
  | VVec v => iter_vector v
  | VList l => mret l
  | VScalar (SStr s) => mret (str_chars s)
  | VScalar _ => lift unsupported
  end.

(** A generator expression over coordinates: its items in order, each one
    the value it yields or the exception its evaluation raises. *)
Definition generator := list (result scalar).

(** Running a generator to its end, or to its first exception. *)
Fixpoint consume (g : generator) : result (list scalar) :=
  match g with
  | [] => Ok []
  | Ok x :: g' => result_map (cons x) (consume g')
  | Raise e :: _ => Raise e
  end.

(** What the constructor can be given. *)
Inductive init_arg :=
| Arg (x : value)
| Gen (g : generator).

(** [isinstance(d, int)], with the integer. *)
Definition as_int (d : init_arg) : option Z :=
  match d with
  | Arg (VScalar (SInt n)) => Some n
  | Arg (VScalar (SBool b)) => Some (Z.b2z b)
  | _ => None
  end.

(** [Vector(d)]: the new instance, once [__init__] has filled it.
<<
    def __init__(self, d):
        if isinstance(d, int):
            self._coords = [0] * d
        else:
            try:
                self._coords = [val for val in d]
            except TypeError:
                raise TypeError('invalid parameter type')
>>
    The instance enters the heap when [_coords] is assigned; before that
    nothing refers to it. *)
Definition __init__ (d : init_arg) : M loc :=
  match as_int d with
  | Some n =>
      cs ← lift (list_repeat (SInt 0) n);
      alloc cs
  | None =>
      cs ← try_except
             match d with
             | Arg x => py_iter x
             | Gen g => lift (consume g)
             end
             (fun e => if exn_isinstance e TypeError
                       then raise (Exn TypeError (Msg "invalid parameter type"))
                       else raise e);
      alloc cs
  end.

Definition dimensions_must_agree {A} : M A :=
  raise (Exn ValueError (Msg "dimensions must agree")).

(** The loop of [__add__] and [__sub__]:
    [for j in range(len(self)): result[j] = self[j] op other[j]] *)
Definition fill (op : scalar -> scalar -> result scalar)
    (self : loc) (other : value) (result : loc) : M unit :=
  n ← __len__ self;
  for_each (range n) (fun j =>
    a ← __getitem__ self j;
    b ← py_getitem other j;
    c ← lift (op a b);
    __setitem__ result j c).

(** [def __add__(self, other)] *)
Definition __add__ (self : loc) (other : value) : M loc :=
  n ← __len__ self;
  m ← py_len other;
  if negb (n =? m)%nat then dimensions_must_agree else
  n ← __len__ self;
  result ← __init__ (Arg (VScalar (SInt (Z.of_nat n))));
  fill py_add self other result;;
  mret result.

(** [def __radd__(self, other): return self + other] *)
Definition __radd__ (self : loc) (other : value) : M loc :=
  __add__ self other.

(** [def __sub__(self, other)] *)
Definition __sub__ (self : loc) (other : value) : M loc :=
  n ← __len__ self;
  m ← py_len other;
  if negb (n =? m)%nat then dimensions_must_agree else
  n ← __len__ self;
  result ← __init__ (Arg (VScalar (SInt (Z.of_nat n))));
  fill py_sub self other result;;
  mret result.

(** [isinstance(other, (float, int, Vector))] *)
Definition is_float_int_Vector (other : value) : bool :=
  match other with
  | VScalar (SFloat _) | VScalar (SInt _) | VScalar (SBool _) | VVec _ => true
  | _ => false
  end.

(** [e * other] in the scalar branch of [__mul__], which the assertion lets
    only a [float] or an [int] reach. *)
Definition py_mul_by (other : value) (e : scalar) : result scalar :=
  match other with
  | VScalar s => py_mul e s
  | _ => unsupported
  end.

(** [def __mul__(self, other)]
<<
        assert isinstance(other, (float, int, Vector)), f"can't multiply Vector and {type(other)}"
        if isinstance(other, Vector):
            return Vector(a * b for a, b in zip(self, other))
        else:
            return Vector(e * other for e in self)
>>
    The generator reads the operands as the constructor runs it. Reading a
    coordinate changes nothing and raises only the [IndexError] that ends the
    iteration, so the coordinates are taken first and the products, which can
    raise, are left to the generator. *)
Definition __mul__ (self : loc) (other : value) : M loc :=
  if negb (is_float_int_Vector other)
  then raise (Exn AssertionError
                (Msg ("can't multiply Vector and " ++ type_repr other)%string))
  else
    match other with
    | VVec o =>
        xs ← iter_vector self;
        ys ← iter_vector o;
        __init__ (Gen ((fun ab => py_mul ab.1 ab.2) <$> zip xs ys))
    | _ =>
        xs ← iter_vector self;
        __init__ (Gen (py_mul_by other <$> xs))
    end.

(** [def __rmul__(self, other): return self * other] *)
Definition __rmul__ (self : loc) (other : value) : M loc :=
  __mul__ self other.

(** [other._coords]: only a [Vector] has the attribute. *)
Definition getattr_coords (other : value) : M (list scalar) :=
  match other with
  | VVec o => get_coords o
  | _ => raise (Exn AttributeError Builtin)
  end.

(** [def __eq__(self, other): return self._coords == other._coords] *)
Definition __eq__ (self : loc) (other : value) : M bool :=
  a ← get_coords self;
  b ← getattr_coords other;
  mret (list_eq a b).

(** [def __ne__(self, other): return not self == other] *)
Definition __ne__ (self : loc) (other : value) : M bool :=
  b ← __eq__ self other;
  mret (negb b).

(** [def __neg__(self): return Vector(-e for e in self)] *)
Definition __neg__ (self : loc) : M loc :=
  xs ← iter_vector self;
  __init__ (Gen (py_neg <$> xs)).

(** [def __lt__(self, other)] *)
Definition __lt__ (self : loc) (other : value) : M bool :=
  n ← __len__ self;
  m ← py_len other;
  if negb (n =? m)%nat then dimensions_must_agree else
  a ← get_coords self;
  b ← getattr_coords other;
  lift (list_lt a b).

(** [def __le__(self, other)] *)
Definition __le__ (self : loc) (other : value) : M bool :=
  n ← __len__ self;
  m ← py_len other;
  if negb (n =? m)%nat then dimensions_must_agree else
  a ← get_coords self;
  b ← getattr_coords other;
  lift (list_le a b).

(** *** Rendering *)

Section Rendering.

(** [repr] of a [float] (the shortest decimal text that reads back as the
    same double) and of a [str] (quoted and escaped) are taken as given. *)
Variable repr_float : float -> string.
Variable repr_str : string -> string.

(** The number of decimal digits of an [int], and the most that the
    interpreter turns into text. *)
Definition int_digits (n : Z) : nat :=
  String.length (DecimalString.NilZero.string_of_int (Z.to_int (Z.abs n))).

Definition int_max_str_digits : nat := 4300.

(** [repr(n)] for an [int]: its decimal text, or [ValueError] when it has
    more digits than the limit. *)
Definition repr_int (n : Z) : result string :=
  if (int_max_str_digits <? int_digits n)%nat
  then Raise (Exn ValueError Builtin)
  else Ok (DecimalString.NilZero.string_of_int (Z.to_int n)).

(** [repr(s)] *)
Definition py_repr (s : scalar) : result string :=
  match s with
  | SNone => Ok "None"
  | SBool true => Ok "True"
  | SBool false => Ok "False"
  | SInt n => repr_int n
  | SFloat f => Ok (repr_float f)
  | SStr t => Ok (repr_str t)
  end.

(** The [repr] of the items of a list, in order, up to the first that
    raises. *)
Fixpoint repr_items (l : list scalar) : result (list string) :=
  match l with
  | [] => Ok []
  | x :: l' =>
      result_bind (py_repr x) (fun r =>
      result_map (cons r) (repr_items l'))
  end.

(** [str(l)] for a list: the [repr] of the items, between brackets. *)
Definition str_of_list (l : list scalar) : result string :=
  result_map (fun rs => ("[" ++ String.concat ", " rs ++ "]")%string)
    (repr_items l).

(** [s[1:-1]] *)
Definition slice_1_m1 (s : string) : string :=
  String.substring 1 (String.length s - 2) s.

(** [def __str__(self): return '<' + str(self._coords)[1:-1] + '>'] *)
Definition __str__ (self : loc) : M string :=
  cs ← get_coords self;
  t ← lift (str_of_list cs);
  mret ("<" ++ slice_1_m1 t ++ ">")%string.

End Rendering.

End Vector.

(** ** Vocabulary of the statements *)

Module Spec.
Import Py Vector.

(** The items an operand shows to [len] and to indexing, if it has any. *)
Definition items (h : heap) (x : value) : option (list scalar) :=
  match x with
  | VVec o => h !! o
  | VList l => Some l
  | VScalar (SStr s) => Some (str_chars s)
  | VScalar _ => None
  end.

(** An operand that is a reference refers to an instance of the heap. *)
Definition allocated (h : heap) (x : value) : Prop :=
  match x with
  | VVec o => is_Some (h !! o)
  | _ => True
  end.

(** [isinstance(s, int)] *)
Definition is_int (s : scalar) : bool :=
  match s with
  | SInt _ | SBool _ => true
  | _ => false
  end.

(** [isinstance(s, float)] *)
Definition is_float (s : scalar) : bool :=
  match s with
  | SFloat _ => true
  | _ => false
  end.

(** An [int], or a [float] other than a NaN. *)
Definition is_ordered_number (s : scalar) : bool :=
  match s with
  | SInt _ | SBool _ => true
  | SFloat f => negb (PrimFloat.is_nan f)
  | _ => false
  end.

(** An [int], or a [float] that is neither a NaN nor an infinity. *)
Definition is_finite_number (s : scalar) : bool :=
  match s with
  | SInt _ | SBool _ => true
  | SFloat f => negb (PrimFloat.is_nan f) && negb (PrimFloat.is_infinity f)
  | _ => false
  end.

(** The heap [h'] differs from [h] at most in the instance [v]. *)
Definition only_changes (v : loc) (h h' : heap) : Prop :=
  length h' = length h /\ forall l, l <> v -> h' !! l = h !! l.

(** The heap [h'] has every instance of [h], unchanged. *)
Definition extends (h h' : heap) : Prop :=
  forall l cs, h !! l = Some cs -> h' !! l = Some cs.

(** A computation that leaves the heap as it is. *)
Definition readonly {A} (m : M A) : Prop :=
  forall h, (m h).2 = h.

(** The instances an operand refers to. *)
Definition refs (x : value) : list loc :=
  match x with
  | VVec o => [o]
  | _ => []
  end.

(** What an arithmetic method leaves behind, from the heap [h] and for the
    given operands: every instance of [h] is unchanged, and a result is an
    instance that [h] did not have, so none of the operands. *)
Definition new_vector (h : heap) (operands : list loc)
    (out : result loc * heap) : Prop :=
  extends h out.2 /\
  forall res, out.1 = Ok res ->
    h !! res = None /\ is_Some (out.2 !! res) /\ res ∉ operands.

(** [isinstance(s, (int, float))] *)
Definition is_number (s : scalar) : bool :=
  match s with
  | SInt _ | SBool _ | SFloat _ => true
  | _ => false
  end.

(** Any scalar but a NaN: the scalars [s] with [s == s]. *)
Definition is_not_nan (s : scalar) : bool :=
  match s with
  | SFloat f => negb (PrimFloat.is_nan f)
  | _ => true
  end.

(** The indices [j] and [k] address two different coordinates of a vector of
    length [n]. *)
Definition other_position (n j k : Z) : Prop :=
  k <> j /\ k <> j + n /\ k <> j - n.

(** An [int] with more digits than the interpreter turns into text. *)
Definition long_int (c : scalar) : Prop :=
  exists n, c = SInt n /\ (int_max_str_digits < int_digits n)%nat.

(** [int(s)] for an [int] or a [bool]. *)
Definition int_of (s : scalar) : Z :=
  match s with
  | SInt n => n
  | SBool b => Z.b2z b
  | _ => 0
  end.

(** The body that [__add__] and [__sub__] share, for the operator [op]. *)
Definition elementwise (op : scalar -> scalar -> result scalar)
    (self : loc) (other : value) : M loc :=
  n ← __len__ self;
  m ← py_len other;
  if negb (n =? m)%nat then dimensions_must_agree else
  n ← __len__ self;
  result ← __init__ (Arg (VScalar (SInt (Z.of_nat n))));
  fill op self other result;;
  mret result.

End Spec.

(** ** Running the primitives *)

Module Run.
Import Py Vector Spec.

Lemma bind_run {A B} (m : M A) (k : A -> M B) h :
  (m ≫= k) h =
  match m h with
  | (Ok a, h') => k a h'
  | (Raise e, h') => (Raise e, h')
  end.
Proof. reflexivity. Qed.

Lemma bind_ok {A B} (m : M A) (k : A -> M B) h a h' :
  m h = (Ok a, h') -> (m ≫= k) h = k a h'.
Proof. intros E. rewrite bind_run, E. reflexivity. Qed.

Lemma bind_raise {A B} (m : M A) (k : A -> M B) h e h' :
  m h = (Raise e, h') -> (m ≫= k) h = (Raise e, h').
Proof. intros E. rewrite bind_run, E. reflexivity. Qed.

Lemma get_coords_run h v cs :
  h !! v = Some cs -> get_coords v h = (Ok cs, h).
Proof. intros E. unfold get_coords. rewrite E. reflexivity. Qed.

Lemma get_coords_dangling h v :
  h !! v = None -> get_coords v h = (Raise (Exn SystemError Builtin), h).
Proof. intros E. unfold get_coords. rewrite E. reflexivity. Qed.

Lemma len_run h v cs :
  h !! v = Some cs -> __len__ v h = (Ok (length cs), h).
Proof.
  intros E. unfold __len__. rewrite (bind_ok _ _ _ _ _ (get_coords_run _ _ _ E)).
  reflexivity.
Qed.

Lemma getitem_run h v cs j :
  h !! v = Some cs -> __getitem__ v j h = (list_getitem cs j, h).
Proof.
  intros E. unfold __getitem__.
  rewrite (bind_ok _ _ _ _ _ (get_coords_run _ _ _ E)). reflexivity.
Qed.

Lemma setitem_run h v cs j x :
  h !! v = Some cs ->
  __setitem__ v j x h =
  match list_setitem cs j x with
  | Ok cs' => (Ok tt, <[v:=cs']> h)
  | Raise e => (Raise e, h)
  end.
Proof.
  intros E. unfold __setitem__.
  rewrite (bind_ok _ _ _ _ _ (get_coords_run _ _ _ E)).
  rewrite bind_run. unfold lift.
  destruct (list_setitem cs j x) as [cs'|e]; [|reflexivity].
  unfold set_coords. rewrite E. reflexivity.
Qed.

Lemma alloc_lookup_new (h : heap) (cs : list scalar) :
  (h ++ [cs]) !! length h = Some cs.
Proof. rewrite lookup_app_r by lia. rewrite Nat.sub_diag. reflexivity. Qed.

Lemma alloc_extends (h : heap) (cs : list scalar) : extends h (h ++ [cs]).
Proof. intros l c E. apply lookup_app_l_Some. exact E. Qed.

Lemma fresh_None (h : heap) : h !! length h = None.
Proof. apply lookup_ge_None. lia. Qed.

(** *** Indices *)

Lemma list_index_inside n j :
  - Z.of_nat n <= j < Z.of_nat n ->
  exists i, list_index n j = Some i /\ (i < n)%nat /\
            Z.of_nat i = (if j <? 0 then j + Z.of_nat n else j).
Proof.
  intros Hj. unfold list_index.
  destruct (Z.ltb_spec j 0) as [Hneg|Hpos].
  - destruct (Z.ltb_spec (j + Z.of_nat n) 0); [lia|].
    destruct (Z.leb_spec (Z.of_nat n) (j + Z.of_nat n)); [lia|]. simpl.
    exists (Z.to_nat (j + Z.of_nat n)). split; [reflexivity|]. lia.
  - destruct (Z.ltb_spec j 0); [lia|].
    destruct (Z.leb_spec (Z.of_nat n) j); [lia|]. simpl.
    exists (Z.to_nat j). split; [reflexivity|]. lia.
Qed.

Lemma list_index_outside n j :
  ~ (- Z.of_nat n <= j < Z.of_nat n) -> list_index n j = None.
Proof.
  intros Hj. unfold list_index.
  destruct (Z.ltb_spec j 0) as [Hneg|Hpos].
  - destruct (Z.ltb_spec (j + Z.of_nat n) 0); [reflexivity|lia].
  - destruct (Z.ltb_spec j 0); [lia|].
    destruct (Z.leb_spec (Z.of_nat n) j); [reflexivity|lia].
Qed.

Lemma list_index_nat n i :
  (i < n)%nat -> list_index n (Z.of_nat i) = Some i.
Proof.
  intros Hi. destruct (list_index_inside n (Z.of_nat i)) as (k & E & _ & Hk); [lia|].
  rewrite E. f_equal. destruct (Z.ltb_spec (Z.of_nat i) 0); lia.
Qed.

Lemma list_getitem_nat (l : list scalar) i x :
  l !! i = Some x -> list_getitem l (Z.of_nat i) = Ok x.
Proof.
  intros E. unfold list_getitem.
  rewrite list_index_nat by (eapply lookup_lt_Some; exact E).
  rewrite E. reflexivity.
Qed.

Lemma list_getitem_end (l : list scalar) :
  list_getitem l (Z.of_nat (length l)) = index_error.
Proof.
  unfold list_getitem. rewrite list_index_outside by lia. reflexivity.
Qed.

Lemma list_setitem_nat (l : list scalar) i x :
  (i < length l)%nat -> list_setitem l (Z.of_nat i) x = Ok (<[i:=x]> l).
Proof.
  intros Hi. unfold list_setitem. rewrite list_index_nat by exact Hi. reflexivity.
Qed.

End Run.

(** ** Construction, length and indexing *)

Module Construction.
Import Py Vector Spec Run.

Lemma init_int_run arg d h :
  as_int arg = Some d -> ssize_min <= d ->
  __init__ arg h = (Ok (length h), h ++ [replicate (Z.to_nat d) (SInt 0)]).
Proof.
  intros E Hd. unfold __init__, list_repeat. rewrite E.
  destruct (Z.ltb_spec d ssize_min); [lia|]. reflexivity.
Qed.

Lemma ssize_min_neg : ssize_min < 0.
Proof. reflexivity. Qed.

(** [Vector(n)] for a length [n]. *)
Lemma init_nat_run (n : nat) h :
  __init__ (Arg (VScalar (SInt (Z.of_nat n)))) h
  = (Ok (length h), h ++ [replicate n (SInt 0)]).
Proof.
  rewrite (init_int_run _ (Z.of_nat n)), Nat2Z.id;
    [reflexivity|reflexivity|pose proof ssize_min_neg; lia].
Qed.

(** C1. Built from a non-negative integer [d], a vector has length [d] and
    every coordinate is the integer zero. *)
Theorem init_zeros (arg : init_arg) (d : Z) (h : heap) :
  as_int arg = Some d -> 0 <= d ->
  exists v h',
    __init__ arg h = (Ok v, h') /\
    (exists n, __len__ v h' = (Ok n, h') /\ Z.of_nat n = d) /\
    forall j, - d <= j < d -> __getitem__ v j h' = (Ok (SInt 0), h').
Proof.
  intros E Hd. exists (length h), (h ++ [replicate (Z.to_nat d) (SInt 0)]).
  pose proof (alloc_lookup_new h (replicate (Z.to_nat d) (SInt 0))) as Hv.
  split; [apply (init_int_run _ _ _ E); pose proof ssize_min_neg; lia|]. split.
  - exists (Z.to_nat d). rewrite (len_run _ _ _ Hv), length_replicate.
    split; [reflexivity|lia].
  - intros j Hj. rewrite (getitem_run _ _ _ _ Hv). f_equal.
    unfold list_getitem. rewrite length_replicate.
    destruct (list_index_inside (Z.to_nat d) j) as (i & Ei & Hi & _); [lia|].
    rewrite Ei, lookup_replicate_2 by exact Hi. reflexivity.
Qed.

Lemma init_zeros_witness :
  as_int (Arg (VScalar (SInt 3))) = Some 3 /\ 0 <= 3 /\
  exists v h',
    __init__ (Arg (VScalar (SInt 3))) [] = (Ok v, h') /\
    (exists n, __len__ v h' = (Ok n, h') /\ Z.of_nat n = 3) /\
    forall j, - 3 <= j < 3 -> __getitem__ v j h' = (Ok (SInt 0), h').
Proof.
  split; [reflexivity|]. split; [lia|].
  apply (init_zeros (Arg (VScalar (SInt 3))) 3 []); [reflexivity|lia].
Defined.

(** C9, as the code has it. Built from a negative integer that fits an
    index-sized integer, a vector has length 0: the integer branch of the
    constructor has no check of the sign. Built from an integer below the
    index-sized ones, it raises the [OverflowError] of [[0] * d]. *)
Theorem init_negative_empty (arg : init_arg) (d : Z) (h : heap) :
  as_int arg = Some d -> d < 0 ->
  (ssize_min <= d ->
   exists v h', __init__ arg h = (Ok v, h') /\ __len__ v h' = (Ok 0%nat, h')) /\
  (d < ssize_min ->
   __init__ arg h = (Raise (Exn OverflowError Builtin), h)).
Proof.
  intros E Hd. split; intros Hb.
  - exists (length h), (h ++ [replicate (Z.to_nat d) (SInt 0)]).
    split; [exact (init_int_run _ _ _ E Hb)|].
    rewrite (len_run _ _ _ (alloc_lookup_new _ _)), length_replicate.
    do 2 f_equal. lia.
  - unfold __init__, list_repeat. rewrite E.
    destruct (Z.ltb_spec d ssize_min); [reflexivity|lia].
Qed.

Lemma init_negative_empty_witness :
  (exists v h',
     __init__ (Arg (VScalar (SInt (-2)))) [] = (Ok v, h') /\
     __len__ v h' = (Ok 0%nat, h')) /\
  (exists v h',
     __init__ (Arg (VScalar (SInt ssize_min))) [] = (Ok v, h') /\
     __len__ v h' = (Ok 0%nat, h')) /\
  __init__ (Arg (VScalar (SInt (ssize_min - 1)))) []
    = (Raise (Exn OverflowError Builtin), []).
Proof.
  split; [|split].
  - apply (init_negative_empty (Arg (VScalar (SInt (-2)))) (-2) []);
      [reflexivity|lia|unfold ssize_min; lia].
  - apply (init_negative_empty (Arg (VScalar (SInt ssize_min))) ssize_min []);
      [reflexivity|unfold ssize_min; lia|lia].
  - apply (init_negative_empty (Arg (VScalar (SInt (ssize_min - 1)))) (ssize_min - 1) []);
      [reflexivity|unfold ssize_min; lia|lia].
Defined.

(** C9, as the specification states it, fails on the integer -2^100: it does
    not fit an index-sized integer, [[0] * d] raises [OverflowError], and no
    vector is made. *)
Lemma init_below_index_size_raises :
  __init__ (Arg (VScalar (SInt (- 2 ^ 100)))) []
    = (Raise (Exn OverflowError Builtin), []) /\
  ~ (exists v h', __init__ (Arg (VScalar (SInt (- 2 ^ 100)))) [] = (Ok v, h')).
Proof.
  assert (__init__ (Arg (VScalar (SInt (- 2 ^ 100)))) []
          = (Raise (Exn OverflowError Builtin), [])) as E by reflexivity.
  split; [exact E|]. intros (v & h' & E'). rewrite E in E'. discriminate.
Qed.

(** C7. On a vector of length [n], reading and writing at index [j] succeed
    exactly when [-n <= j < n]; a negative [j] addresses coordinate [n + j];
    any other index raises [IndexError] and leaves the vector as it is. *)
Theorem index_range (h : heap) (v : loc) (cs : list scalar) (j : Z) (x : scalar) :
  h !! v = Some cs ->
  (- Z.of_nat (length cs) <= j < Z.of_nat (length cs) ->
     exists i c,
       Z.of_nat i = (if j <? 0 then Z.of_nat (length cs) + j else j) /\
       cs !! i = Some c /\
       __getitem__ v j h = (Ok c, h) /\
       __setitem__ v j x h = (Ok tt, <[v := <[i := x]> cs]> h)) /\
  (~ (- Z.of_nat (length cs) <= j < Z.of_nat (length cs)) ->
     __getitem__ v j h = (Raise (Exn IndexError Builtin), h) /\
     __setitem__ v j x h = (Raise (Exn IndexError Builtin), h)).
Proof.
  intros Hv. split; intros Hj.
  - destruct (list_index_inside _ _ Hj) as (i & Ei & Hi & Hz).
    destruct (lookup_lt_is_Some_2 cs i Hi) as [c Hc].
    exists i, c. split; [rewrite Hz; destruct (j <? 0); lia|].
    split; [exact Hc|].
    rewrite (getitem_run _ _ _ _ Hv), (setitem_run _ _ _ _ _ Hv).
    unfold list_getitem, list_setitem. rewrite Ei, Hc. split; reflexivity.
  - rewrite (getitem_run _ _ _ _ Hv), (setitem_run _ _ _ _ _ Hv).
    unfold list_getitem, list_setitem.
    rewrite (list_index_outside _ _ Hj). split; reflexivity.
Qed.

Lemma index_range_witness :
  [[SInt 7; SInt 8; SInt 9]] !! 0%nat = Some [SInt 7; SInt 8; SInt 9] /\
  __getitem__ 0%nat (-1) [[SInt 7; SInt 8; SInt 9]]
    = (Ok (SInt 9), [[SInt 7; SInt 8; SInt 9]]) /\
  __setitem__ 0%nat (-4) SNone [[SInt 7; SInt 8; SInt 9]]
    = (Raise (Exn IndexError Builtin), [[SInt 7; SInt 8; SInt 9]]).
Proof.
  split; [reflexivity|].
  destruct (index_range [[SInt 7; SInt 8; SInt 9]] 0%nat [SInt 7; SInt 8; SInt 9]
              (-1) SNone eq_refl) as [Hin _].
  destruct (index_range [[SInt 7; SInt 8; SInt 9]] 0%nat [SInt 7; SInt 8; SInt 9]
              (-4) SNone eq_refl) as [_ Hout].
  split.
  - destruct Hin as (i & c & Hi & Hc & Hget & _); [simpl; lia|].
    simpl in Hi. assert (i = 2%nat) as -> by lia.
    simpl in Hc. injection Hc as <-. exact Hget.
  - destruct Hout as [_ Hset]; [simpl; lia|]. exact Hset.
Defined.

End Construction.

(** ** The errors the methods raise *)

Module Errors.
Import Py Vector Spec Run.

Lemma length_str_chars s : length (str_chars s) = String.length s.
Proof. induction s as [|c s IH]; simpl; [reflexivity|]. rewrite IH. reflexivity. Qed.

Lemma py_len_run h x b :
  items h x = Some b -> py_len x h = (Ok (length b), h).
Proof.
  destruct x as [[| | | |s]|l|o]; simpl; intros E; try discriminate.
  - injection E as <-. rewrite length_str_chars. reflexivity.
  - injection E as <-. reflexivity.
  - exact (len_run _ _ _ E).
Qed.

Lemma beq_length_ne (n m : nat) : n <> m -> negb (n =? m)%nat = true.
Proof. intros H. apply negb_true_iff, Nat.eqb_neq, H. Qed.

(** The guard that opens [__add__], [__sub__], [__lt__] and [__le__]. *)
Lemma length_guard {A} (k : M A) h a x ca cx :
  h !! a = Some ca -> items h x = Some cx -> length ca <> length cx ->
  (n ← __len__ a; m ← py_len x;
   if negb (n =? m)%nat then dimensions_must_agree else k) h
  = (Raise (Exn ValueError (Msg "dimensions must agree")), h).
Proof.
  intros Ha Hx Hne.
  rewrite (bind_ok _ _ _ _ _ (len_run _ _ _ Ha)).
  rewrite (bind_ok _ _ _ _ _ (py_len_run _ _ _ Hx)).
  rewrite (beq_length_ne _ _ Hne). reflexivity.
Qed.

(** C2. On two vectors of unequal lengths, [+], [-], [<] and [<=] raise
    [ValueError] (dimensions must agree), and the heap is as before: no
    vector has been made. *)
Theorem unequal_lengths_raise (h : heap) (a b : loc) (ca cb : list scalar) :
  h !! a = Some ca -> h !! b = Some cb -> length ca <> length cb ->
  __add__ a (VVec b) h = (Raise (Exn ValueError (Msg "dimensions must agree")), h) /\
  __sub__ a (VVec b) h = (Raise (Exn ValueError (Msg "dimensions must agree")), h) /\
  __lt__ a (VVec b) h = (Raise (Exn ValueError (Msg "dimensions must agree")), h) /\
  __le__ a (VVec b) h = (Raise (Exn ValueError (Msg "dimensions must agree")), h).
Proof.
  intros Ha Hb Hne.
  repeat split; eapply length_guard; eauto.
Qed.

Lemma unequal_lengths_raise_witness :
  __add__ 0%nat (VVec 1%nat) [[SInt 1; SInt 2]; [SInt 3]]
    = (Raise (Exn ValueError (Msg "dimensions must agree")),
       [[SInt 1; SInt 2]; [SInt 3]]) /\
  __sub__ 0%nat (VVec 1%nat) [[SInt 1; SInt 2]; [SInt 3]]
    = (Raise (Exn ValueError (Msg "dimensions must agree")),
       [[SInt 1; SInt 2]; [SInt 3]]) /\
  __lt__ 0%nat (VVec 1%nat) [[SInt 1; SInt 2]; [SInt 3]]
    = (Raise (Exn ValueError (Msg "dimensions must agree")),
       [[SInt 1; SInt 2]; [SInt 3]]) /\
  __le__ 0%nat (VVec 1%nat) [[SInt 1; SInt 2]; [SInt 3]]
    = (Raise (Exn ValueError (Msg "dimensions must agree")),
       [[SInt 1; SInt 2]; [SInt 3]]).
Proof.
  apply (unequal_lengths_raise [[SInt 1; SInt 2]; [SInt 3]] 0%nat 1%nat
           [SInt 1; SInt 2] [SInt 3]); [reflexivity|reflexivity|simpl; lia].
Defined.

(** C4, as the code has it. Multiplying a vector by an operand that is neither
    a [Vector], nor a [float], nor an [int] fails on the assertion that opens
    [__mul__]: the exception is an [AssertionError], which is not a
    [TypeError], and its message names the type of the operand. *)
Theorem mul_unsupported_operand (h : heap) (v : loc) (x : value) :
  is_float_int_Vector x = false ->
  exists e,
    __mul__ v x h = (Raise e, h) /\
    exn_cls e = AssertionError /\
    exn_isinstance e TypeError = false /\
    exn_msg e = Msg ("can't multiply Vector and " ++ type_repr x)%string.
Proof.
  intros Hx. unfold __mul__. rewrite Hx. simpl.
  eexists. split; [reflexivity|]. repeat split.
Qed.

Lemma mul_unsupported_operand_witness :
  is_float_int_Vector (VList [SInt 1]) = false /\
  exists e,
    __mul__ 0%nat (VList [SInt 1]) [[SInt 1]] = (Raise e, [[SInt 1]]) /\
    exn_cls e = AssertionError /\
    exn_isinstance e TypeError = false /\
    exn_msg e = Msg "can't multiply Vector and <class 'list'>".
Proof.
  split; [reflexivity|].
  apply (mul_unsupported_operand [[SInt 1]] 0%nat (VList [SInt 1])). reflexivity.
Defined.

(** C4, as the specification states it, fails on the string "wesh": the
    exception that [__mul__] raises is not of class [TypeError]. *)
Lemma mul_str_not_TypeError :
  __mul__ 0%nat (VScalar (SStr "wesh")) [[SInt 0; SInt 46]]
    = (Raise (Exn AssertionError (Msg "can't multiply Vector and <class 'str'>")),
       [[SInt 0; SInt 46]]) /\
  ~ (exists e h',
       __mul__ 0%nat (VScalar (SStr "wesh")) [[SInt 0; SInt 46]] = (Raise e, h') /\
       exn_isinstance e TypeError = true).
Proof.
  split; [reflexivity|].
  intros (e & h' & E & He). injection E as <- _. discriminate He.
Qed.

(** C10. Compared with an operand that is not a [Vector], [==] and [!=] raise
    [AttributeError]: [__eq__] reads the [_coords] of the other operand. *)
Theorem eq_non_vector_raises (h : heap) (v : loc) (cs : list scalar) (x : value) :
  h !! v = Some cs -> (forall o, x <> VVec o) ->
  __eq__ v x h = (Raise (Exn AttributeError Builtin), h) /\
  __ne__ v x h = (Raise (Exn AttributeError Builtin), h).
Proof.
  intros Hv Hx.
  assert (__eq__ v x h = (Raise (Exn AttributeError Builtin), h)) as E.
  { unfold __eq__. rewrite (bind_ok _ _ _ _ _ (get_coords_run _ _ _ Hv)).
    destruct x as [s|l|o]; [reflexivity|reflexivity|].
    destruct (Hx o eq_refl). }
  split; [exact E|].
  unfold __ne__. rewrite (bind_raise _ _ _ _ _ E). reflexivity.
Qed.

Lemma eq_non_vector_raises_witness :
  __eq__ 0%nat (VList [SInt 1; SInt 2]) [[SInt 1; SInt 2]]
    = (Raise (Exn AttributeError Builtin), [[SInt 1; SInt 2]]) /\
  __ne__ 0%nat (VList [SInt 1; SInt 2]) [[SInt 1; SInt 2]]
    = (Raise (Exn AttributeError Builtin), [[SInt 1; SInt 2]]).
Proof.
  apply (eq_non_vector_raises [[SInt 1; SInt 2]] 0%nat [SInt 1; SInt 2]
           (VList [SInt 1; SInt 2])); [reflexivity|intros o; discriminate].
Defined.

End Errors.

(** ** Iteration and the constructor on a generator *)

Module Iteration.
Import Py Vector Spec Run.

Lemma iter_getitem_run h v cs :
  h !! v = Some cs ->
  forall m k, (k + m = length cs)%nat ->
  iter_getitem (__getitem__ v) (Z.of_nat <$> seq k (S m)) h = (Ok (drop k cs), h).
Proof.
  intros Hv. induction m as [|m IH]; intros k Hk.
  - cbn [seq fmap list_fmap iter_getitem].
    rewrite bind_run. unfold try_except.
    rewrite bind_run, (getitem_run _ _ _ _ Hv).
    replace k with (length cs) by lia. rewrite list_getitem_end.
    cbn. rewrite drop_all. reflexivity.
  - destruct (lookup_lt_is_Some_2 cs k) as [x Hx]; [lia|].
    change (seq k (S (S m))) with (k :: seq (S k) (S m)).
    cbn [fmap list_fmap iter_getitem].
    rewrite bind_run. unfold try_except.
    rewrite bind_run, (getitem_run _ _ _ _ Hv), (list_getitem_nat _ _ _ Hx).
    cbn [lift mret M_ret].
    rewrite bind_run. fold (list_fmap nat Z Z.of_nat).
    change (list_fmap nat Z Z.of_nat (seq (S k) (S m)))
      with (Z.of_nat <$> seq (S k) (S m)).
    rewrite IH by lia. cbn [mret M_ret].
    rewrite (drop_S _ _ _ Hx). reflexivity.
Qed.

(** Iterating over a vector yields its coordinates, in order, and leaves the
    heap as it is. *)
Lemma iter_vector_run h v cs :
  h !! v = Some cs -> iter_vector v h = (Ok cs, h).
Proof.
  intros Hv. unfold iter_vector, range.
  rewrite (bind_ok _ _ _ _ _ (len_run _ _ _ Hv)).
  rewrite (iter_getitem_run _ _ _ Hv (length cs) 0%nat) by lia.
  reflexivity.
Qed.

Lemma iter_vector_dangling h v :
  h !! v = None -> iter_vector v h = (Raise (Exn SystemError Builtin), h).
Proof.
  intros Hv. unfold iter_vector, __len__.
  rewrite bind_run, bind_run, (get_coords_dangling _ _ Hv). reflexivity.
Qed.

(** *** Generators *)

Lemma consume_Ok g cs : consume g = Ok cs <-> g = Ok <$> cs.
Proof.
  revert cs. induction g as [|[x|e] g IH]; intros cs; simpl.
  - split; intros E.
    + injection E as <-. reflexivity.
    + destruct cs; [reflexivity|discriminate].
  - unfold result_map, result_bind. destruct (consume g) as [ys|e] eqn:Eg.
    + split; intros E.
      * injection E as <-. simpl. f_equal. apply IH. reflexivity.
      * destruct cs as [|y cs]; [discriminate|]. simpl in E.
        injection E as -> E. apply IH in E. injection E as ->. reflexivity.
    + split; intros E; [discriminate|].
      destruct cs as [|y cs]; [discriminate|]. simpl in E.
      injection E as _ E. apply IH in E. discriminate.
  - split; intros E; [discriminate|]. destruct cs; discriminate.
Qed.

Lemma consume_Raise g e : consume g = Raise e -> Raise e ∈ g.
Proof.
  induction g as [|[x|e'] g IH]; simpl; intros E.
  - discriminate.
  - unfold result_map, result_bind in E. destruct (consume g); [discriminate|].
    injection E as ->. right. apply IH. reflexivity.
  - injection E as ->. left.
Qed.

Lemma consume_total g :
  (forall r, r ∈ g -> is_Ok r = true) -> exists cs, consume g = Ok cs.
Proof.
  intros Hg. destruct (consume g) as [cs|e] eqn:E; [eauto|].
  apply consume_Raise, Hg in E. discriminate.
Qed.

Lemma init_gen_ok g cs h :
  consume g = Ok cs -> __init__ (Gen g) h = (Ok (length h), h ++ [cs]).
Proof.
  intros E. unfold __init__. simpl.
  rewrite bind_run. unfold try_except, lift. rewrite E. reflexivity.
Qed.

(** An exception raised while the generator runs leaves [__init__], a
    [TypeError] as the constructor's own ['invalid parameter type']. *)
Lemma init_gen_raise g e h :
  consume g = Raise e ->
  __init__ (Gen g) h =
  (Raise (if exn_isinstance e TypeError
          then Exn TypeError (Msg "invalid parameter type") else e), h).
Proof.
  intros E. unfold __init__. simpl.
  rewrite bind_run. unfold try_except, lift. rewrite E.
  destruct (exn_isinstance e TypeError); reflexivity.
Qed.

End Iteration.

(** ** Multiplication of two vectors *)

Module Multiplication.
Import Py Vector Spec Run Iteration.

Lemma products_zip_with (xs ys : list scalar) :
  (fun ab => py_mul ab.1 ab.2) <$> zip xs ys = zip_with py_mul xs ys.
Proof.
  revert ys. induction xs as [|x xs IH]; intros [|y ys]; simpl; try reflexivity.
  f_equal. apply IH.
Qed.

Lemma float_of_int_raises n e :
  float_of_int n = Raise e -> exn_cls e = OverflowError.
Proof.
  unfold float_of_int.
  destruct (PrimFloat.is_infinity _); intros E; [|discriminate].
  injection E as <-. reflexivity.
Qed.

Lemma num_binop_raises fz ff x y e :
  num_binop fz ff x y = Raise e -> exn_cls e = OverflowError.
Proof.
  destruct x as [x|x], y as [y|y]; simpl; try discriminate;
    unfold result_map, result_bind;
    match goal with
    | |- context [float_of_int ?n] =>
        destruct (float_of_int n) eqn:E; [discriminate|]
    end;
    intros E'; injection E' as <-; exact (float_of_int_raises _ _ E).
Qed.

(** A coordinate product raises nothing but [TypeError] and [OverflowError]. *)
Lemma py_mul_raises a b e :
  py_mul a b = Raise e -> exn_cls e = TypeError \/ exn_cls e = OverflowError.
Proof.
  destruct a as [|x|x|x|x], b as [|y|y|y|y];
    cbn -[float_of_int PrimFloat.mul Z.mul str_repeat];
    try (intros E; discriminate E);
    try (intros E; injection E as <-; left; reflexivity);
    match goal with
    | |- context [float_of_int ?n] =>
        destruct (float_of_int n) eqn:E; cbn; intros E'; [discriminate E'|];
        injection E' as <-; right; exact (float_of_int_raises _ _ E)
    | |- context [str_repeat ?s ?n] =>
        unfold str_repeat; destruct (_ || _); cbn; intros E;
        [injection E as <-; right; reflexivity|discriminate E]
    end.
Qed.

(** The product of two [int]s, and of two [float]s, is always defined. *)
Lemma py_mul_int_defined a b :
  is_int a = true -> is_int b = true -> is_Ok (py_mul a b) = true.
Proof. destruct a, b; try discriminate; reflexivity. Qed.

Lemma py_mul_float_defined a b :
  is_float a = true -> is_float b = true -> is_Ok (py_mul a b) = true.
Proof. destruct a, b; try discriminate; reflexivity. Qed.

Lemma mul_vectors_run h u v cu cv :
  h !! u = Some cu -> h !! v = Some cv ->
  __mul__ u (VVec v) h = __init__ (Gen (zip_with py_mul cu cv)) h.
Proof.
  intros Hu Hv. unfold __mul__. cbn [is_float_int_Vector negb].
  rewrite (bind_ok _ _ _ _ _ (iter_vector_run _ _ _ Hu)).
  rewrite (bind_ok _ _ _ _ _ (iter_vector_run _ _ _ Hv)).
  rewrite products_zip_with. reflexivity.
Qed.

(** C3, as the code has it. The product of two vectors never raises
    [ValueError], whatever the two lengths. When every coordinate product
    [u[j] * v[j]] below the shorter length is defined, as it is when all
    coordinates are [int]s or all are [float]s, the product is a new vector,
    of the shorter length, whose coordinate [j] is [u[j] * v[j]]. *)
Theorem mul_vectors (h : heap) (u v : loc) (cu cv : list scalar) :
  h !! u = Some cu -> h !! v = Some cv ->
  (forall e h', __mul__ u (VVec v) h = (Raise e, h') -> exn_cls e <> ValueError) /\
  ((forall j a b, cu !! j = Some a -> cv !! j = Some b -> is_Ok (py_mul a b) = true) ->
   exists w h',
     __mul__ u (VVec v) h = (Ok w, h') /\
     h !! w = None /\ extends h h' /\
     __len__ w h' = (Ok (length cu `min` length cv)%nat, h') /\
     forall j a b, cu !! j = Some a -> cv !! j = Some b ->
       __getitem__ w (Z.of_nat j) h' = (py_mul a b, h')) /\
  ((Forall (fun c => is_int c = true) cu /\ Forall (fun c => is_int c = true) cv) \/
   (Forall (fun c => is_float c = true) cu /\ Forall (fun c => is_float c = true) cv) ->
   forall j a b, cu !! j = Some a -> cv !! j = Some b -> is_Ok (py_mul a b) = true).
Proof.
  intros Hu Hv. rewrite (mul_vectors_run _ _ _ _ _ Hu Hv). split; [|split].
  - intros e h' E.
    destruct (consume (zip_with py_mul cu cv)) as [ps|e0] eqn:Ec.
    + rewrite (init_gen_ok _ _ _ Ec) in E. discriminate.
    + rewrite (init_gen_raise _ _ _ Ec) in E. injection E as <- _.
      apply consume_Raise, list_elem_of_lookup_1 in Ec as [j Ej].
      apply lookup_zip_with_Some in Ej as (a & b & Ep & _ & _).
      symmetry in Ep. apply py_mul_raises in Ep.
      unfold exn_isinstance. destruct e0 as [c m]. simpl in Ep |- *.
      destruct Ep as [-> | ->]; simpl; intros E; discriminate E.
  - intros Hdef.
    destruct (consume_total (zip_with py_mul cu cv)) as [ps Eps].
    { intros r Hr. apply list_elem_of_lookup_1 in Hr as [j Ej].
      apply lookup_zip_with_Some in Ej as (a & b & -> & Ha & Hb). eauto. }
    exists (length h), (h ++ [ps]).
    pose proof (alloc_lookup_new h ps) as Hw.
    split; [exact (init_gen_ok _ _ _ Eps)|].
    split; [apply fresh_None|]. split; [apply alloc_extends|].
    apply consume_Ok in Eps. split.
    + rewrite (len_run _ _ _ Hw). do 2 f_equal.
      rewrite <- (length_fmap Ok ps), <- Eps. apply length_zip_with.
    + intros j a b Ha Hb. rewrite (getitem_run _ _ _ _ Hw). f_equal.
      assert (zip_with py_mul cu cv !! j = Some (py_mul a b)) as Ej.
      { apply lookup_zip_with_Some. eauto. }
      rewrite Eps, list_lookup_fmap in Ej.
      destruct (ps !! j) as [p|] eqn:Ep; [|discriminate].
      injection Ej as <-. apply list_getitem_nat, Ep.
  - intros [[Fu Fv]|[Fu Fv]] j a b Ha Hb;
      rewrite Forall_lookup in Fu; rewrite Forall_lookup in Fv.
    + apply py_mul_int_defined; eauto.
    + apply py_mul_float_defined; eauto.
Qed.

Lemma mul_vectors_witness :
  exists w h',
    __mul__ 0%nat (VVec 1%nat) [[SInt 0; SInt 46; SInt 69]; [SInt 2; SInt 23]]
      = (Ok w, h') /\
    __len__ w h' = (Ok 2%nat, h') /\
    __getitem__ w 1 h' = (Ok (SInt 1058), h').
Proof.
  destruct (mul_vectors [[SInt 0; SInt 46; SInt 69]; [SInt 2; SInt 23]]
              0%nat 1%nat [SInt 0; SInt 46; SInt 69] [SInt 2; SInt 23]
              eq_refl eq_refl) as (_ & Hmul & Hdef).
  destruct Hmul as (w & h' & E & _ & _ & Hlen & Hget).
  { apply Hdef. left. split; repeat constructor. }
  exists w, h'. split; [exact E|]. split; [exact Hlen|].
  exact (Hget 1%nat (SInt 46) (SInt 23) eq_refl eq_refl).
Defined.

(** C3, as the specification states it, fails on two vectors of numbers: the
    product of the [int] 10^400 and a [float] raises [OverflowError], and so
    does the product of the vectors. *)
Lemma mul_vectors_overflow :
  __mul__ 0%nat (VVec 1%nat) [[SInt (10 ^ 400)]; [SFloat 1]]
    = (Raise (Exn OverflowError Builtin), [[SInt (10 ^ 400)]; [SFloat 1]]) /\
  ~ (exists w h',
       __mul__ 0%nat (VVec 1%nat) [[SInt (10 ^ 400)]; [SFloat 1]] = (Ok w, h')).
Proof.
  assert (__mul__ 0%nat (VVec 1%nat) [[SInt (10 ^ 400)]; [SFloat 1]]
          = (Raise (Exn OverflowError Builtin), [[SInt (10 ^ 400)]; [SFloat 1]])) as E.
  { vm_compute. reflexivity. }
  split; [exact E|]. intros (w & h' & E'). rewrite E in E'. discriminate.
Qed.

(** On coordinates that are not numbers the product fails too, with the
    constructor's [TypeError]. *)
Example mul_vectors_of_str :
  __mul__ 0%nat (VVec 1%nat) [[SStr "a"]; [SStr "b"]]
    = (Raise (Exn TypeError (Msg "invalid parameter type")), [[SStr "a"]; [SStr "b"]]).
Proof. reflexivity. Qed.

End Multiplication.

(** ** Facts on floats *)

Module FloatFacts.
Import Py Vector Spec.

(** What the specification of the primitive floats says of a float that is
    not a NaN, and of one that is finite. *)
Lemma Prim2SF_not_nan f :
  PrimFloat.is_nan f = false -> Prim2SF f <> S754_nan.
Proof.
  intros Hn. unfold Prim2SF. rewrite Hn.
  destruct (PrimFloat.is_zero f); [discriminate|].
  destruct (PrimFloat.is_infinity f); [discriminate|].
  destruct (Z.frexp f) as [r ex].
  destruct (shr_fexp _ _ _ _ _) as [s e'].
  destruct (shr_m s); discriminate.
Qed.

Lemma Prim2SF_not_infinity f s :
  PrimFloat.is_nan f = false -> PrimFloat.is_infinity f = false ->
  Prim2SF f <> S754_infinity s.
Proof.
  intros Hn Hi. unfold Prim2SF. rewrite Hn, Hi.
  destruct (PrimFloat.is_zero f); [discriminate|].
  destruct (Z.frexp f) as [r ex].
  destruct (shr_fexp _ _ _ _ _) as [s' e'].
  destruct (shr_m s'); discriminate.
Qed.

Lemma SFopp_involutive x : SFopp (SFopp x) = x.
Proof. destruct x as [s|s| |s m e]; simpl; rewrite ?negb_involutive; reflexivity. Qed.

Lemma SFcompare_refl x : x <> S754_nan -> SFcompare x x = Some Eq.
Proof.
  destruct x as [s|s| |s m e]; simpl; intros Hx.
  - reflexivity.
  - destruct s; reflexivity.
  - destruct (Hx eq_refl).
  - rewrite Z.compare_refl. fold (Pos.compare m m). rewrite Pos.compare_refl.
    destruct s; reflexivity.
Qed.

Lemma SFadd_opp x :
  x <> S754_nan -> (forall s, x <> S754_infinity s) ->
  exists s, SFadd prec emax x (SFopp x) = S754_zero s.
Proof.
  destruct x as [s|s| |s m e]; intros Hn Hi.
  - destruct s; simpl; eauto.
  - destruct (Hi s eq_refl).
  - destruct (Hn eq_refl).
  - exists false. unfold SFopp, SFadd.
    set (q := fst (shl_align m e (Z.min e e))).
    replace (cond_Zopp s (Z.pos q) + cond_Zopp (negb s) (Z.pos q)) with 0
      by (destruct s; simpl; lia).
    reflexivity.
Qed.

(** [-(-f) == f] unless [f] is a NaN. *)
Lemma float_neg_neg f :
  PrimFloat.is_nan f = false -> float_compare (- - f) f = Some Eq.
Proof.
  intros Hn. unfold float_compare.
  rewrite FloatAxioms.compare_spec, !FloatAxioms.opp_spec, SFopp_involutive.
  rewrite SFcompare_refl by (apply Prim2SF_not_nan, Hn). reflexivity.
Qed.

(** [f + (-f) == 0] when [f] is finite. *)
Lemma float_add_neg f :
  PrimFloat.is_nan f = false -> PrimFloat.is_infinity f = false ->
  Z_compare_float 0 (f + - f) = Some Eq.
Proof.
  intros Hn Hi. unfold Z_compare_float.
  rewrite FloatAxioms.add_spec, FloatAxioms.opp_spec. unfold SF64add.
  destruct (SFadd_opp (Prim2SF f)) as [s ->].
  - apply Prim2SF_not_nan, Hn.
  - intros s. apply Prim2SF_not_infinity; assumption.
  - reflexivity.
Qed.

End FloatFacts.

(** ** Addition and subtraction *)

Module Elementwise.
Import Py Vector Spec Run Errors.

Lemma add_elementwise self other : __add__ self other = elementwise py_add self other.
Proof. reflexivity. Qed.

Lemma sub_elementwise self other : __sub__ self other = elementwise py_sub self other.
Proof. reflexivity. Qed.

Lemma py_getitem_run h x b j :
  items h x = Some b -> py_getitem x j h = (list_getitem b j, h).
Proof.
  destruct x as [[| | | |s]|l|o]; simpl; intros E; try discriminate.
  - injection E as <-. reflexivity.
  - injection E as <-. reflexivity.
  - exact (getitem_run _ _ _ _ E).
Qed.

Lemma items_insert h x res r :
  x <> VVec res -> items (<[res:=r]> h) x = items h x.
Proof.
  destruct x as [[| | | |s]|l|o]; simpl; intros Hx; try reflexivity.
  apply list_lookup_insert_ne. congruence.
Qed.

Lemma items_alloc h x b cs :
  items h x = Some b -> items (h ++ [cs]) x = Some b.
Proof.
  destruct x as [[| | | |s]|l|o]; simpl; intros E; try exact E.
  apply lookup_app_l_Some, E.
Qed.

Lemma items_not_fresh h x b : items h x = Some b -> x <> VVec (length h).
Proof. intros E ->. simpl in E. rewrite fresh_None in E. discriminate. Qed.

Section Fill.
Variable op : scalar -> scalar -> result scalar.
Variables (h : heap) (self res : loc) (other : value).
Variables (a b r cs : list scalar).
Hypothesis Hself : h !! self = Some a.
Hypothesis Hother : items h other = Some b.
Hypothesis Hres : h !! res = Some r.
Hypothesis Hne_self : res <> self.
Hypothesis Hne_other : other <> VVec res.
Hypothesis Hlen_b : length b = length a.
Hypothesis Hlen_r : length r = length a.
Hypothesis Hcs : zip_with op a b = Ok <$> cs.

Lemma fill_length_cs : length cs = length a.
Proof using All.
  rewrite <- (length_fmap Ok cs), <- Hcs, length_zip_with. lia.
Qed.

(** The state of the loop when [k] coordinates are set. *)
Lemma fill_step k ak bk ck :
  a !! k = Some ak -> b !! k = Some bk -> cs !! k = Some ck ->
  (a' ← __getitem__ self (Z.of_nat k);
   b' ← py_getitem other (Z.of_nat k);
   c ← lift (op a' b');
   __setitem__ res (Z.of_nat k) c) (<[res := take k cs ++ drop k r]> h)
  = (Ok tt, <[res := take (S k) cs ++ drop (S k) r]> h).
Proof using All.
  intros Ha Hb Hc.
  pose proof (lookup_lt_Some _ _ _ Hres) as Hres_lt.
  pose proof (lookup_lt_Some _ _ _ Ha) as Hk.
  pose proof fill_length_cs as Hlen_cs.
  assert (op ak bk = Ok ck) as Hop.
  { assert (zip_with op a b !! k = Some (op ak bk)) as E
      by (apply lookup_zip_with_Some; eauto).
    rewrite Hcs, list_lookup_fmap, Hc in E. injection E as ->. reflexivity. }
  set (rk := take k cs ++ drop k r).
  assert ((<[res := rk]> h) !! self = Some a) as Hself'
    by (rewrite list_lookup_insert_ne by exact Hne_self; exact Hself).
  assert (items (<[res := rk]> h) other = Some b) as Hother'
    by (rewrite items_insert by exact Hne_other; exact Hother).
  assert ((<[res := rk]> h) !! res = Some rk) as Hres'
    by (apply list_lookup_insert_eq, Hres_lt).
  rewrite bind_run, (getitem_run _ _ _ _ Hself'), (list_getitem_nat _ _ _ Ha).
  rewrite bind_run, (py_getitem_run _ _ _ _ Hother'), (list_getitem_nat _ _ _ Hb).
  rewrite bind_run. unfold lift at 1. rewrite Hop.
  rewrite (setitem_run _ _ _ _ _ Hres').
  assert (length (take k cs) = k) as Htk by (rewrite length_take; lia).
  rewrite list_setitem_nat
    by (unfold rk; rewrite length_app, length_take, length_drop; lia).
  rewrite list_insert_insert_eq. do 2 f_equal.
  unfold rk. rewrite (take_S_r _ _ _ Hc), <- app_assoc. simpl.
  destruct (lookup_lt_is_Some_2 r k) as [rk' Hrk]; [lia|].
  rewrite (drop_S _ _ _ Hrk).
  rewrite insert_app_r_alt by lia. rewrite Htk, Nat.sub_diag. reflexivity.
Qed.

Lemma fill_loop m : forall k, (k + m = length a)%nat ->
  for_each (Z.of_nat <$> seq k m)
    (fun j =>
       a' ← __getitem__ self j;
       b' ← py_getitem other j;
       c ← lift (op a' b');
       __setitem__ res j c)
    (<[res := take k cs ++ drop k r]> h)
  = (Ok tt, <[res := cs]> h).
Proof using All.
  pose proof fill_length_cs as Hlen_cs.
  induction m as [|m IH]; intros k Hk.
  - simpl. rewrite take_ge, drop_ge, app_nil_r by lia. reflexivity.
  - destruct (lookup_lt_is_Some_2 a k) as [ak Ha]; [lia|].
    destruct (lookup_lt_is_Some_2 b k) as [bk Hb]; [lia|].
    destruct (lookup_lt_is_Some_2 cs k) as [ck Hc]; [lia|].
    change (Z.of_nat <$> seq k (S m))
      with (Z.of_nat k :: (Z.of_nat <$> seq (S k) m)).
    cbn [for_each]. rewrite bind_run.
    rewrite (fill_step k ak bk ck Ha Hb Hc).
    apply IH. lia.
Qed.

(** When every [op] on a pair of coordinates is defined, the loop ends with
    the values [cs] in [result], and nothing else changed. *)
Lemma fill_run : fill op self other res h = (Ok tt, <[res := cs]> h).
Proof using All.
  unfold fill. rewrite (bind_ok _ _ _ _ _ (len_run _ _ _ Hself)).
  pose proof (fill_loop (length a) 0%nat eq_refl) as L.
  rewrite take_0, drop_0 in L. cbn [app] in L.
  rewrite (list_insert_id _ _ _ Hres) in L. exact L.
Qed.
End Fill.

(** The outcome of [__add__] and [__sub__] when the lengths agree and every
    [op] on a pair of coordinates is defined. *)
Lemma elementwise_run op h self other a b cs :
  h !! self = Some a -> items h other = Some b -> length b = length a ->
  zip_with op a b = Ok <$> cs ->
  elementwise op self other h = (Ok (length h), h ++ [cs]).
Proof.
  intros Hself Hother Hlen Hcs. unfold elementwise.
  rewrite (bind_ok _ _ _ _ _ (len_run _ _ _ Hself)).
  rewrite (bind_ok _ _ _ _ _ (py_len_run _ _ _ Hother)).
  rewrite Hlen, Nat.eqb_refl. cbn [negb].
  rewrite (bind_ok _ _ _ _ _ (len_run _ _ _ Hself)).
  rewrite (bind_ok _ _ _ _ _ (Construction.init_nat_run (length a) _)).
  set (zeros := replicate (length a) (SInt 0)).
  rewrite bind_run.
  rewrite (fill_run op (h ++ [zeros]) self (length h) other a b zeros cs).
  - cbn [mret M_ret]. f_equal.
    rewrite insert_app_r_alt by lia. rewrite Nat.sub_diag. reflexivity.
  - apply lookup_app_l_Some, Hself.
  - apply items_alloc, Hother.
  - apply alloc_lookup_new.
  - apply lookup_lt_Some in Hself. lia.
  - eapply items_not_fresh, Hother.
  - exact Hlen.
  - apply length_replicate.
  - exact Hcs.
Qed.

End Elementwise.

(** ** Algebraic laws *)

Module Algebra.
Import Py Vector Spec Run Errors Iteration Elementwise FloatFacts.

Lemma eq_run h s a x y :
  h !! s = Some x -> h !! a = Some y ->
  __eq__ s (VVec a) h = (Ok (list_eq x y), h).
Proof.
  intros Hs Ha. unfold __eq__.
  rewrite (bind_ok _ _ _ _ _ (get_coords_run _ _ _ Hs)).
  cbn [getattr_coords].
  rewrite (bind_ok _ _ _ _ _ (get_coords_run _ _ _ Ha)). reflexivity.
Qed.

Lemma neg_run h v cv :
  h !! v = Some cv -> __neg__ v h = __init__ (Gen (py_neg <$> cv)) h.
Proof.
  intros Hv. unfold __neg__.
  rewrite (bind_ok _ _ _ _ _ (iter_vector_run _ _ _ Hv)). reflexivity.
Qed.

Lemma neg_run_ok h v cv ns :
  h !! v = Some cv -> py_neg <$> cv = Ok <$> ns ->
  __neg__ v h = (Ok (length h), h ++ [ns]).
Proof.
  intros Hv E. rewrite (neg_run _ _ _ Hv). apply init_gen_ok, consume_Ok, E.
Qed.

(** *** On scalars *)

Lemma py_eq_int n x : is_int x = true -> n = int_of x -> py_eq (SInt n) x = true.
Proof.
  intros Hx ->. destruct x; try discriminate; unfold py_eq; simpl;
    rewrite Z.compare_refl; reflexivity.
Qed.

Lemma py_sub_add_int x y :
  is_int x = true -> is_int y = true ->
  exists d s, py_sub x y = Ok d /\ py_add d y = Ok s /\ py_eq s x = true.
Proof.
  intros Hx Hy.
  exists (SInt (int_of x - int_of y)), (SInt (int_of x - int_of y + int_of y)).
  split; [destruct x, y; try discriminate; reflexivity|].
  split; [destruct y; try discriminate; reflexivity|].
  apply py_eq_int; [exact Hx|lia].
Qed.

Lemma py_neg_neg x :
  is_ordered_number x = true ->
  exists n m, py_neg x = Ok n /\ py_neg n = Ok m /\ py_eq m x = true.
Proof.
  destruct x as [|b|z|f|s]; intros Hx; try discriminate.
  - exists (SInt (- Z.b2z b)), (SInt (- - Z.b2z b)).
    repeat split. apply py_eq_int; [reflexivity|simpl; lia].
  - exists (SInt (- z)), (SInt (- - z)).
    repeat split. apply py_eq_int; [reflexivity|simpl; lia].
  - exists (SFloat (- f)), (SFloat (- - f)). repeat split.
    unfold py_eq, to_num, num_compare.
    rewrite float_neg_neg; [reflexivity|].
    apply negb_true_iff, Hx.
Qed.

Lemma py_add_neg x :
  is_finite_number x = true ->
  exists n s, py_neg x = Ok n /\ py_add x n = Ok s /\ py_eq s (SInt 0) = true.
Proof.
  destruct x as [|b|z|f|s]; intros Hx; try discriminate.
  - exists (SInt (- Z.b2z b)), (SInt (Z.b2z b + - Z.b2z b)).
    repeat split. unfold py_eq; simpl. rewrite Z.add_opp_diag_r. reflexivity.
  - exists (SInt (- z)), (SInt (z + - z)).
    repeat split. unfold py_eq; simpl. rewrite Z.add_opp_diag_r. reflexivity.
  - exists (SFloat (- f)), (SFloat (f + - f)). repeat split.
    apply andb_true_iff in Hx as [Hn Hi].
    apply negb_true_iff in Hn. apply negb_true_iff in Hi.
    unfold py_eq, to_num, num_compare.
    rewrite (float_add_neg _ Hn Hi). reflexivity.
Qed.

(** *** On lists of coordinates *)

Lemma sub_add_lists ca : forall cb,
  length cb = length ca ->
  Forall (fun c => is_int c = true) ca -> Forall (fun c => is_int c = true) cb ->
  exists ds ss,
    zip_with py_sub ca cb = Ok <$> ds /\ length ds = length ca /\
    zip_with py_add ds cb = Ok <$> ss /\ list_eq ss ca = true.
Proof.
  induction ca as [|x ca IH]; intros [|y cb] Hlen Fa Fb; try discriminate.
  - exists [], []. repeat split.
  - apply Forall_cons in Fa as [Hx Fa]. apply Forall_cons in Fb as [Hy Fb].
    destruct (IH cb) as (ds & ss & E1 & L & E2 & E3); [simpl in Hlen; lia|done|done|].
    destruct (py_sub_add_int x y Hx Hy) as (d & s & Hd & Hs & He).
    exists (d :: ds), (s :: ss). simpl.
    rewrite Hd, E1, Hs, E2, He, E3, L. repeat split.
Qed.

Lemma neg_neg_lists cv :
  Forall (fun c => is_ordered_number c = true) cv ->
  exists ns ms,
    py_neg <$> cv = Ok <$> ns /\ py_neg <$> ns = Ok <$> ms /\
    list_eq ms cv = true.
Proof.
  induction cv as [|x cv IH]; intros F.
  - exists [], []. repeat split.
  - apply Forall_cons in F as [Hx F].
    destruct (IH F) as (ns & ms & E1 & E2 & E3).
    destruct (py_neg_neg x Hx) as (n & m & Hn & Hm & He).
    exists (n :: ns), (m :: ms). simpl.
    change (list_fmap scalar (result scalar) py_neg) with (fmap (M:=list) py_neg).
    change (list_fmap scalar (result scalar) Ok) with (fmap (M:=list) (@Ok scalar)).
    rewrite Hn, E1, Hm, E2, He, E3. repeat split.
Qed.

Lemma add_neg_lists cv :
  Forall (fun c => is_finite_number c = true) cv ->
  exists ns ss,
    py_neg <$> cv = Ok <$> ns /\ length ns = length cv /\
    zip_with py_add cv ns = Ok <$> ss /\
    list_eq ss (replicate (length cv) (SInt 0)) = true.
Proof.
  induction cv as [|x cv IH]; intros F.
  - exists [], []. repeat split.
  - apply Forall_cons in F as [Hx F].
    destruct (IH F) as (ns & ss & E1 & L & E2 & E3).
    destruct (py_add_neg x Hx) as (n & s & Hn & Hs & He).
    exists (n :: ns), (s :: ss). simpl.
    change (list_fmap scalar (result scalar) py_neg) with (fmap (M:=list) py_neg).
    change (list_fmap scalar (result scalar) Ok) with (fmap (M:=list) (@Ok scalar)).
    rewrite Hn, E1, Hs, E2, He, E3, L. repeat split.
Qed.

(** *** On vectors *)

(** C5, as the code has it. For two vectors of equal length whose coordinates
    are [int]s, [(a - b) + b == a]. *)
Theorem sub_add_cancel_int (h : heap) (a b : loc) (ca cb : list scalar) :
  h !! a = Some ca -> h !! b = Some cb -> length ca = length cb ->
  Forall (fun c => is_int c = true) ca -> Forall (fun c => is_int c = true) cb ->
  exists d h1 s h2,
    __sub__ a (VVec b) h = (Ok d, h1) /\
    __add__ d (VVec b) h1 = (Ok s, h2) /\
    __eq__ s (VVec a) h2 = (Ok true, h2).
Proof.
  intros Ha Hb Hlen Fa Fb.
  destruct (sub_add_lists ca cb) as (ds & ss & E1 & L & E2 & E3); [done..|].
  exists (length h), (h ++ [ds]), (length (h ++ [ds])), ((h ++ [ds]) ++ [ss]).
  assert ((h ++ [ds]) !! b = Some cb) as Hb1 by apply lookup_app_l_Some, Hb.
  split; [|split].
  - rewrite sub_elementwise.
    apply (elementwise_run py_sub h a (VVec b) ca cb ds); [done|done|lia|done].
  - rewrite add_elementwise.
    apply (elementwise_run py_add (h ++ [ds]) (length h) (VVec b) ds cb ss);
      [apply alloc_lookup_new|done|lia|done].
  - rewrite (eq_run _ _ _ ss ca), E3; [reflexivity|apply alloc_lookup_new|].
    do 2 apply lookup_app_l_Some. exact Ha.
Qed.

Lemma sub_add_cancel_int_witness :
  exists d h1 s h2,
    __sub__ 0%nat (VVec 1%nat) [[SInt 0; SInt 46; SBool true]; [SInt 0; SInt 23; SInt 45]]
      = (Ok d, h1) /\
    __add__ d (VVec 1%nat) h1 = (Ok s, h2) /\
    __eq__ s (VVec 0%nat) h2 = (Ok true, h2).
Proof.
  apply (sub_add_cancel_int
           [[SInt 0; SInt 46; SBool true]; [SInt 0; SInt 23; SInt 45]] 0%nat 1%nat
           [SInt 0; SInt 46; SBool true] [SInt 0; SInt 23; SInt 45]);
    [reflexivity|reflexivity|reflexivity|repeat constructor|repeat constructor].
Defined.

(** C5, as the specification states it, fails on two vectors of [float]s:
    with [a] the vector of 1.0 and [b] the vector of 2^54, [a - b] rounds to
    [-2^54], so [(a - b) + b] is the vector of 0.0, and [(a - b) + b == a] is
    [False]. *)
Lemma sub_add_float_not_cancel :
  (d ← __sub__ 0%nat (VVec 1%nat);
   s ← __add__ d (VVec 1%nat);
   c ← get_coords s;
   e ← __eq__ s (VVec 0%nat);
   mret (c, e)) [[SFloat 1]; [SFloat 0x1p+54]]
  = (Ok ([SFloat 0], false),
     [[SFloat 1]; [SFloat 0x1p+54]; [SFloat (-0x1p+54)]; [SFloat 0]]).
Proof. vm_compute. reflexivity. Qed.

(** C6, as the code has it. [-(-v) == v] for a vector whose coordinates are
    [int]s or [float]s other than NaN, and [v + (-v)] equals the zero vector
    of the same length for one whose coordinates are [int]s or finite
    [float]s. *)
Theorem neg_neg_and_add_neg (h : heap) (v : loc) (cv : list scalar) :
  h !! v = Some cv ->
  (Forall (fun c => is_ordered_number c = true) cv ->
   exists n h1 m h2,
     __neg__ v h = (Ok n, h1) /\
     __neg__ n h1 = (Ok m, h2) /\
     __eq__ m (VVec v) h2 = (Ok true, h2)) /\
  (Forall (fun c => is_finite_number c = true) cv ->
   exists n h1 s h2 z h3,
     __neg__ v h = (Ok n, h1) /\
     __add__ v (VVec n) h1 = (Ok s, h2) /\
     __init__ (Arg (VScalar (SInt (Z.of_nat (length cv))))) h2 = (Ok z, h3) /\
     __eq__ s (VVec z) h3 = (Ok true, h3)).
Proof.
  intros Hv. split; intros F.
  - destruct (neg_neg_lists cv F) as (ns & ms & E1 & E2 & E3).
    exists (length h), (h ++ [ns]), (length (h ++ [ns])), ((h ++ [ns]) ++ [ms]).
    split; [exact (neg_run_ok _ _ _ _ Hv E1)|]. split.
    + exact (neg_run_ok _ _ _ _ (alloc_lookup_new _ _) E2).
    + rewrite (eq_run _ _ _ ms cv), E3; [reflexivity|apply alloc_lookup_new|].
      do 2 apply lookup_app_l_Some. exact Hv.
  - destruct (add_neg_lists cv F) as (ns & ss & E1 & L & E2 & E3).
    set (zs := replicate (length cv) (SInt 0)) in *.
    exists (length h), (h ++ [ns]), (length (h ++ [ns])), ((h ++ [ns]) ++ [ss]),
      (length ((h ++ [ns]) ++ [ss])), (((h ++ [ns]) ++ [ss]) ++ [zs]).
    split; [exact (neg_run_ok _ _ _ _ Hv E1)|]. split; [|split].
    + rewrite add_elementwise.
      apply (elementwise_run py_add (h ++ [ns]) v (VVec (length h)) cv ns ss);
        [apply lookup_app_l_Some, Hv|apply alloc_lookup_new|done|done].
    + apply Construction.init_nat_run.
    + rewrite (eq_run _ _ _ ss zs), E3; [reflexivity| |apply alloc_lookup_new].
      apply lookup_app_l_Some, alloc_lookup_new.
Qed.

Lemma neg_neg_and_add_neg_witness :
  (exists n h1 m h2,
     __neg__ 0%nat [[SInt 3; SFloat 2.5; SFloat infinity]] = (Ok n, h1) /\
     __neg__ n h1 = (Ok m, h2) /\
     __eq__ m (VVec 0%nat) h2 = (Ok true, h2)) /\
  (exists n h1 s h2 z h3,
     __neg__ 0%nat [[SInt 3; SFloat 2.5; SBool true]] = (Ok n, h1) /\
     __add__ 0%nat (VVec n) h1 = (Ok s, h2) /\
     __init__ (Arg (VScalar (SInt 3))) h2 = (Ok z, h3) /\
     __eq__ s (VVec z) h3 = (Ok true, h3)).
Proof.
  split.
  - apply (neg_neg_and_add_neg [[SInt 3; SFloat 2.5; SFloat infinity]] 0%nat
             [SInt 3; SFloat 2.5; SFloat infinity] eq_refl).
    repeat constructor.
  - apply (neg_neg_and_add_neg [[SInt 3; SFloat 2.5; SBool true]] 0%nat
             [SInt 3; SFloat 2.5; SBool true] eq_refl).
    repeat constructor.
Defined.

(** C6, as the specification states it, fails on [float]s that are not
    finite: for the vector of the infinity, [v + (-v)] is the vector of a NaN,
    which does not equal the zero vector; for the vector of a NaN,
    [-(-v) == v] is [False]. *)
Lemma neg_inf_nan_not_cancel :
  (n ← __neg__ 0%nat;
   s ← __add__ 0%nat (VVec n);
   z ← __init__ (Arg (VScalar (SInt 1)));
   c ← get_coords s;
   e ← __eq__ s (VVec z);
   mret (c, e)) [[SFloat infinity]]
  = (Ok ([SFloat nan], false),
     [[SFloat infinity]; [SFloat neg_infinity]; [SFloat nan]; [SInt 0]]) /\
  (n ← __neg__ 0%nat;
   m ← __neg__ n;
   __eq__ m (VVec 0%nat)) [[SFloat nan]]
  = (Ok false, [[SFloat nan]; [SFloat nan]; [SFloat nan]]).
Proof. split; vm_compute; reflexivity. Qed.

End Algebra.

(** ** Operands are never mutated *)

Module Frame.
Import Py Vector Spec Run Errors Iteration Elementwise.

Lemma len_readonly v : readonly (__len__ v).
Proof.
  intros h. destruct (h !! v) as [cs|] eqn:E.
  - rewrite (len_run _ _ _ E). reflexivity.
  - unfold __len__. rewrite bind_run, (get_coords_dangling _ _ E). reflexivity.
Qed.

Lemma getitem_readonly v j : readonly (__getitem__ v j).
Proof.
  intros h. destruct (h !! v) as [cs|] eqn:E.
  - rewrite (getitem_run _ _ _ _ E). reflexivity.
  - unfold __getitem__. rewrite bind_run, (get_coords_dangling _ _ E). reflexivity.
Qed.

Lemma py_len_readonly x : readonly (py_len x).
Proof. destruct x as [[| | | |s]|l|o]; try (intros h; reflexivity). apply len_readonly. Qed.

Lemma py_getitem_readonly x j : readonly (py_getitem x j).
Proof.
  destruct x as [[| | | |s]|l|o]; try (intros h; reflexivity). apply getitem_readonly.
Qed.

Lemma iter_vector_readonly v : readonly (iter_vector v).
Proof.
  intros h. destruct (h !! v) as [cs|] eqn:E.
  - rewrite (iter_vector_run _ _ _ E). reflexivity.
  - rewrite (iter_vector_dangling _ _ E). reflexivity.
Qed.

Lemma py_iter_readonly x : readonly (py_iter x).
Proof.
  destruct x as [[| | | |s]|l|o]; try (intros h; reflexivity). apply iter_vector_readonly.
Qed.

Lemma only_changes_refl v h : only_changes v h h.
Proof. split; [reflexivity|]. intros; reflexivity. Qed.

Lemma only_changes_trans v h1 h2 h3 :
  only_changes v h1 h2 -> only_changes v h2 h3 -> only_changes v h1 h3.
Proof.
  intros [L1 E1] [L2 E2]. split; [congruence|].
  intros l Hl. rewrite E2, E1 by exact Hl. reflexivity.
Qed.

Lemma setitem_only_changes v j x h : only_changes v h (__setitem__ v j x h).2.
Proof.
  destruct (h !! v) as [cs|] eqn:E.
  - rewrite (setitem_run _ _ _ _ _ E).
    destruct (list_setitem cs j x) as [cs'|e]; simpl; [|apply only_changes_refl].
    split; [apply length_insert|].
    intros l Hl. apply list_lookup_insert_ne. congruence.
  - unfold __setitem__. rewrite bind_run, (get_coords_dangling _ _ E).
    apply only_changes_refl.
Qed.

Lemma for_each_only_changes {A} v (body : A -> M unit) js :
  (forall j h, only_changes v h (body j h).2) ->
  forall h, only_changes v h (for_each js body h).2.
Proof.
  intros Hbody. induction js as [|j js IH]; intros h; simpl.
  - apply only_changes_refl.
  - rewrite bind_run. pose proof (Hbody j h) as Hj.
    destruct (body j h) as [[[]|e] h']; simpl in Hj |- *; [|exact Hj].
    eapply only_changes_trans; [exact Hj|apply IH].
Qed.

(** The loop of [__add__] and [__sub__] writes to [result] only. *)
Lemma fill_only_changes op self other res h :
  only_changes res h (fill op self other res h).2.
Proof.
  unfold fill. rewrite bind_run.
  pose proof (len_readonly self h) as Hl.
  destruct (__len__ self h) as [[n|e] h']; simpl in Hl; subst h';
    [|apply only_changes_refl].
  apply for_each_only_changes. clear h. intros j h.
  rewrite bind_run. pose proof (getitem_readonly self j h) as Hg.
  destruct (__getitem__ self j h) as [[a|e] h']; simpl in Hg; subst h';
    [|apply only_changes_refl].
  rewrite bind_run. pose proof (py_getitem_readonly other j h) as Hp.
  destruct (py_getitem other j h) as [[b|e] h']; simpl in Hp; subst h';
    [|apply only_changes_refl].
  rewrite bind_run. unfold lift at 1.
  destruct (op a b) as [c|e]; [|apply only_changes_refl].
  apply setitem_only_changes.
Qed.

(** The constructor allocates one instance, or raises and allocates none. *)
Lemma init_outcome d h :
  (exists cs, __init__ d h = (Ok (length h), h ++ [cs])) \/
  (exists e, __init__ d h = (Raise e, h)).
Proof.
  unfold __init__. destruct (as_int d) as [n|].
  { rewrite bind_run. unfold lift, list_repeat.
    destruct (n <? ssize_min); [right|left]; eexists; reflexivity. }
  rewrite bind_run. unfold try_except.
  assert (forall (m : M (list scalar)), (m h).2 = h ->
    (exists cs, m h = (Ok cs, h)) \/ (exists e, m h = (Raise e, h))) as Hcase.
  { intros m Hm. destruct (m h) as [[cs|e] h']; simpl in Hm; subst h'; eauto. }
  destruct (Hcase match d with Arg x => py_iter x | Gen g => lift (consume g) end)
    as [[cs ->]|[e ->]].
  - destruct d as [x|g]; [apply py_iter_readonly|reflexivity].
  - left. eexists. reflexivity.
  - right. destruct (exn_isinstance e TypeError); eexists; reflexivity.
Qed.

Lemma new_vector_raise h ops e : new_vector h ops (Raise e, h).
Proof. split; [intros l cs E; exact E|]. intros res E. discriminate E. Qed.

Lemma new_vector_init h ops d :
  Forall (fun l => is_Some (h !! l)) ops -> new_vector h ops (__init__ d h).
Proof.
  intros Hops. destruct (init_outcome d h) as [[cs ->]|[e ->]];
    [|apply new_vector_raise].
  split; [apply alloc_extends|]. simpl. intros res E. injection E as <-.
  split; [apply fresh_None|]. split; [rewrite alloc_lookup_new; eauto|].
  intros Hin. rewrite Forall_forall in Hops. apply Hops in Hin.
  rewrite fresh_None in Hin. destruct Hin as [? Hin]. discriminate Hin.
Qed.

Lemma new_vector_elementwise op h self other :
  is_Some (h !! self) -> allocated h other ->
  new_vector h (self :: refs other) (elementwise op self other h).
Proof.
  intros [a Ha] Hother. unfold elementwise.
  rewrite (bind_ok _ _ _ _ _ (len_run _ _ _ Ha)).
  rewrite bind_run. pose proof (py_len_readonly other h) as Hp.
  destruct (py_len other h) as [[m|e] h']; simpl in Hp; subst h';
    [|apply new_vector_raise].
  destruct (negb (length a =? m)%nat); [apply new_vector_raise|].
  rewrite (bind_ok _ _ _ _ _ (len_run _ _ _ Ha)).
  rewrite (bind_ok _ _ _ _ _ (Construction.init_nat_run (length a) _)).
  set (zs := replicate _ _). rewrite bind_run.
  pose proof (fill_only_changes op self other (length h) (h ++ [zs])) as [L E].
  assert (extends h (fill op self other (length h) (h ++ [zs])).2) as Hext.
  { intros l cs Hl. rewrite E; [apply lookup_app_l_Some, Hl|].
    apply lookup_lt_Some in Hl. lia. }
  destruct (fill op self other (length h) (h ++ [zs])) as [[[]|e] h'];
    simpl in L, E, Hext; (split; [exact Hext|]); simpl; intros res Hres;
    [|discriminate Hres].
  injection Hres as <-. split; [apply fresh_None|]. split.
  - apply lookup_lt_is_Some. rewrite L, length_app. simpl. lia.
  - intros Hin. apply elem_of_cons in Hin as [Heq|Hin].
    + apply lookup_lt_Some in Ha. lia.
    + destruct other as [s|l|o]; simpl in Hin; try (inversion Hin; fail).
      apply list_elem_of_singleton in Hin. subst o. simpl in Hother.
      rewrite fresh_None in Hother. destruct Hother as [? Hother]. discriminate Hother.
Qed.

Lemma operands_allocated h self other :
  is_Some (h !! self) -> allocated h other ->
  Forall (fun l => is_Some (h !! l)) (self :: refs other).
Proof.
  intros Hs Ho. constructor; [exact Hs|].
  destruct other as [s|l|o]; simpl; [constructor|constructor|].
  constructor; [exact Ho|constructor].
Qed.

(** C8. Addition, subtraction, multiplication and negation leave every
    instance of the heap, the operands among them, with the coordinates it
    had, whether they return or raise; what they return is an instance that
    was not there before, so neither operand. *)
Theorem arithmetic_makes_new_vector (h : heap) (self : loc) (other : value) :
  is_Some (h !! self) -> allocated h other ->
  new_vector h (self :: refs other) (__add__ self other h) /\
  new_vector h (self :: refs other) (__sub__ self other h) /\
  new_vector h (self :: refs other) (__mul__ self other h) /\
  new_vector h [self] (__neg__ self h).
Proof.
  intros Hs Ho. pose proof (operands_allocated _ _ _ Hs Ho) as Hops.
  split; [|split; [|split]].
  - rewrite add_elementwise. apply new_vector_elementwise; assumption.
  - rewrite sub_elementwise. apply new_vector_elementwise; assumption.
  - unfold __mul__. destruct (negb (is_float_int_Vector other));
      [apply new_vector_raise|].
    destruct Hs as [cs Hs].
    assert (forall g : list scalar -> generator,
      new_vector h (self :: refs other)
        ((xs ← iter_vector self; __init__ (Gen (g xs))) h)) as Hscalar.
    { intros g. rewrite (bind_ok _ _ _ _ _ (iter_vector_run _ _ _ Hs)).
      apply new_vector_init, Hops. }
    destruct other as [s|l|o]; try apply (Hscalar (fun xs => _ <$> xs)).
    destruct Ho as [co Ho].
    rewrite (bind_ok _ _ _ _ _ (iter_vector_run _ _ _ Hs)).
    rewrite (bind_ok _ _ _ _ _ (iter_vector_run _ _ _ Ho)).
    apply new_vector_init, Hops.
  - unfold __neg__. destruct Hs as [cs Hs].
    rewrite (bind_ok _ _ _ _ _ (iter_vector_run _ _ _ Hs)).
    apply new_vector_init. repeat constructor. eauto.
Qed.

Lemma arithmetic_makes_new_vector_witness :
  new_vector [[SInt 0; SInt 46]; [SInt 2; SInt 23]] [0%nat; 1%nat]
    (__add__ 0%nat (VVec 1%nat) [[SInt 0; SInt 46]; [SInt 2; SInt 23]]) /\
  new_vector [[SInt 0; SInt 46]; [SInt 2; SInt 23]] [0%nat; 1%nat]
    (__sub__ 0%nat (VVec 1%nat) [[SInt 0; SInt 46]; [SInt 2; SInt 23]]) /\
  new_vector [[SInt 0; SInt 46]; [SInt 2; SInt 23]] [0%nat; 1%nat]
    (__mul__ 0%nat (VVec 1%nat) [[SInt 0; SInt 46]; [SInt 2; SInt 23]]) /\
  new_vector [[SInt 0; SInt 46]; [SInt 2; SInt 23]] [0%nat]
    (__neg__ 0%nat [[SInt 0; SInt 46]; [SInt 2; SInt 23]]).
Proof.
  apply (arithmetic_makes_new_vector [[SInt 0; SInt 46]; [SInt 2; SInt 23]]
           0%nat (VVec 1%nat)); simpl; eauto.
Defined.

End Frame.

(** ** The script at the end of the file *)

Module Script.
Import Py Vector.

(** [v = Vector(5); v[1] = 23; v[-1] = 45; print(v[4]); u = v + v] *)
Example script_add :
  (v ← __init__ (Arg (VScalar (SInt 5)));
   __setitem__ v 1 (SInt 23);;
   __setitem__ v (-1) (SInt 45);;
   x ← __getitem__ v 4;
   u ← __add__ v (VVec v);
   mret (x, u)) []
  = (Ok (SInt 45, 1%nat),
     [[SInt 0; SInt 23; SInt 0; SInt 0; SInt 45];
      [SInt 0; SInt 46; SInt 0; SInt 0; SInt 90]]).
Proof. reflexivity. Qed.

(** [u[3] = 69; u - v; -u; u + [1, 2, 3, 4, 5]; [1, 2, 3, 4, 5] + u] *)
Example script_sub_neg_radd :
  (d ← __sub__ 1%nat (VVec 0%nat);
   n ← __neg__ 1%nat;
   r ← __add__ 1%nat (VList [SInt 1; SInt 2; SInt 3; SInt 4; SInt 5]);
   r' ← __radd__ 1%nat (VList [SInt 1; SInt 2; SInt 3; SInt 4; SInt 5]);
   mret tt)
    [[SInt 0; SInt 23; SInt 0; SInt 0; SInt 45];
     [SInt 0; SInt 46; SInt 0; SInt 69; SInt 90]]
  = (Ok tt,
     [[SInt 0; SInt 23; SInt 0; SInt 0; SInt 45];
      [SInt 0; SInt 46; SInt 0; SInt 69; SInt 90];
      [SInt 0; SInt 23; SInt 0; SInt 69; SInt 45];
      [SInt 0; SInt (-46); SInt 0; SInt (-69); SInt (-90)];
      [SInt 1; SInt 48; SInt 3; SInt 73; SInt 95];
      [SInt 1; SInt 48; SInt 3; SInt 73; SInt 95]]).
Proof. reflexivity. Qed.

(** [u * 3; 3.5 * u; u * v] *)
Example script_mul :
  (m ← __mul__ 1%nat (VScalar (SInt 3));
   m' ← __rmul__ 1%nat (VScalar (SFloat 3.5));
   p ← __mul__ 1%nat (VVec 0%nat);
   mret tt)
    [[SInt 0; SInt 23; SInt 0; SInt 0; SInt 45];
     [SInt 0; SInt 46; SInt 0; SInt 69; SInt 90]]
  = (Ok tt,
     [[SInt 0; SInt 23; SInt 0; SInt 0; SInt 45];
      [SInt 0; SInt 46; SInt 0; SInt 69; SInt 90];
      [SInt 0; SInt 138; SInt 0; SInt 207; SInt 270];
      [SFloat 0; SFloat 161; SFloat 0; SFloat 241.5; SFloat 315];
      [SInt 0; SInt 1058; SInt 0; SInt 0; SInt 4050]]).
Proof. vm_compute. reflexivity. Qed.

End Script.

(** ** Copies and indexed writes *)

Module Copies.
Import Py Vector Spec Run Errors Iteration Elementwise FloatFacts.

Lemma py_iter_run h x cs : items h x = Some cs -> py_iter x h = (Ok cs, h).
Proof.
  destruct x as [[| | | |s]|l|o]; simpl; intros E; try discriminate.
  - injection E as <-. reflexivity.
  - injection E as <-. reflexivity.
  - exact (iter_vector_run _ _ _ E).
Qed.

Lemma init_iterable_run h x cs :
  items h x = Some cs -> __init__ (Arg x) h = (Ok (length h), h ++ [cs]).
Proof.
  intros E. unfold __init__.
  assert (as_int (Arg x) = None) as -> by (destruct x as [[| | | |s]|l|o]; done).
  rewrite bind_run. unfold try_except. rewrite (py_iter_run _ _ _ E). reflexivity.
Qed.

(** X1. Built from a list, a [str] or a vector, a vector is a new instance
    that reads as its argument does: the same length, and at every index the
    same item or the same [IndexError]. *)
Theorem init_copies (h : heap) (x : value) (cs : list scalar) :
  items h x = Some cs ->
  exists w h',
    __init__ (Arg x) h = (Ok w, h') /\
    h !! w = None /\ extends h h' /\
    (__len__ w h').1 = (py_len x h).1 /\
    forall j, (__getitem__ w j h').1 = (py_getitem x j h).1.
Proof.
  intros E. exists (length h), (h ++ [cs]).
  pose proof (alloc_lookup_new h cs) as Hw.
  split; [exact (init_iterable_run _ _ _ E)|].
  split; [apply fresh_None|]. split; [apply alloc_extends|]. split.
  - rewrite (len_run _ _ _ Hw), (py_len_run _ _ _ E). reflexivity.
  - intros j. rewrite (getitem_run _ _ _ _ Hw), (py_getitem_run _ _ _ _ E).
    reflexivity.
Qed.

Lemma init_copies_witness :
  exists w h',
    __init__ (Arg (VScalar (SStr "ab"))) [[SInt 1]] = (Ok w, h') /\
    h' !! w = Some [SStr "a"; SStr "b"].
Proof.
  destruct (init_copies [[SInt 1]] (VScalar (SStr "ab")) [SStr "a"; SStr "b"] eq_refl)
    as (w & h' & E & _).
  exists w, h'. split; [exact E|].
  vm_compute in E. injection E as <- <-. reflexivity.
Defined.

(** *** Equality of a list of coordinates with itself *)

Lemma float_compare_refl f :
  PrimFloat.is_nan f = false -> float_compare f f = Some Eq.
Proof.
  intros Hn. unfold float_compare. rewrite FloatAxioms.compare_spec.
  rewrite SFcompare_refl by (apply Prim2SF_not_nan, Hn). reflexivity.
Qed.

Lemma py_eq_refl x : is_not_nan x = true -> py_eq x x = true.
Proof.
  destruct x as [|b|n|f|s]; intros Hx; unfold py_eq; simpl.
  - reflexivity.
  - rewrite Z.compare_refl. reflexivity.
  - rewrite Z.compare_refl. reflexivity.
  - rewrite float_compare_refl; [reflexivity|]. apply negb_true_iff, Hx.
  - apply String.eqb_refl.
Qed.

Lemma list_eq_refl cs :
  Forall (fun c => is_not_nan c = true) cs -> list_eq cs cs = true.
Proof.
  induction 1 as [|x cs Hx _ IH]; simpl; [reflexivity|].
  rewrite (py_eq_refl _ Hx), IH. reflexivity.
Qed.

(** X2. A vector built from a vector [v] without NaN is another instance,
    equal to [v]; whatever is then assigned to a coordinate of the copy, the
    coordinates of [v] stay as they were. *)
Theorem copy_is_independent (h : heap) (v : loc) (cs : list scalar) :
  h !! v = Some cs -> Forall (fun c => is_not_nan c = true) cs ->
  exists w h1,
    __init__ (Arg (VVec v)) h = (Ok w, h1) /\
    w <> v /\
    __eq__ w (VVec v) h1 = (Ok true, h1) /\
    forall j x, (__setitem__ w j x h1).2 !! v = Some cs.
Proof.
  intros Hv F. exists (length h), (h ++ [cs]).
  pose proof (alloc_lookup_new h cs) as Hw.
  pose proof (lookup_lt_Some _ _ _ Hv) as Hlt.
  assert ((h ++ [cs]) !! v = Some cs) as Hv1 by apply lookup_app_l_Some, Hv.
  split; [exact (init_iterable_run h (VVec v) cs Hv)|].
  split; [lia|]. split.
  - unfold __eq__. rewrite (bind_ok _ _ _ _ _ (get_coords_run _ _ _ Hw)).
    cbn [getattr_coords]. rewrite (bind_ok _ _ _ _ _ (get_coords_run _ _ _ Hv1)).
    cbn [mret M_ret]. rewrite (list_eq_refl _ F). reflexivity.
  - intros j x. rewrite (setitem_run _ _ _ _ _ Hw).
    destruct (list_setitem cs j x) as [cs'|e]; simpl; [|exact Hv1].
    rewrite list_lookup_insert_ne by lia. exact Hv1.
Qed.

Lemma copy_is_independent_witness :
  exists w h1,
    __init__ (Arg (VVec 0%nat)) [[SInt 1; SFloat 2.5]] = (Ok w, h1) /\
    w <> 0%nat /\
    __eq__ w (VVec 0%nat) h1 = (Ok true, h1) /\
    forall j x, (__setitem__ w j x h1).2 !! 0%nat = Some [SInt 1; SFloat 2.5].
Proof.
  apply (copy_is_independent [[SInt 1; SFloat 2.5]] 0%nat [SInt 1; SFloat 2.5] eq_refl).
  repeat constructor.
Defined.

(** X3. Built from [None] or from a [float], which are neither an [int] nor
    iterable, the constructor raises [TypeError('invalid parameter type')] and
    makes no vector. *)
Theorem init_rejects_non_iterable (h : heap) (s : scalar) :
  s = SNone \/ is_float s = true ->
  __init__ (Arg (VScalar s)) h
  = (Raise (Exn TypeError (Msg "invalid parameter type")), h).
Proof.
  intros [->|Hs]; [reflexivity|].
  destruct s; try discriminate Hs. reflexivity.
Qed.

Lemma init_rejects_non_iterable_witness :
  __init__ (Arg (VScalar (SFloat 3.5))) []
  = (Raise (Exn TypeError (Msg "invalid parameter type")), []).
Proof.
  apply (init_rejects_non_iterable [] (SFloat 3.5)). right. reflexivity.
Defined.

(** X4. After [v[j] = x] with [j] in range, [v[j]] is [x], the length is what
    it was, and an index that addresses another coordinate, or none, reads
    as before. *)
Theorem setitem_then_getitem (h : heap) (v : loc) (cs : list scalar)
    (j : Z) (x : scalar) :
  h !! v = Some cs ->
  - Z.of_nat (length cs) <= j < Z.of_nat (length cs) ->
  exists h',
    __setitem__ v j x h = (Ok tt, h') /\
    __getitem__ v j h' = (Ok x, h') /\
    __len__ v h' = (Ok (length cs), h') /\
    forall k, other_position (Z.of_nat (length cs)) j k ->
      (__getitem__ v k h').1 = (__getitem__ v k h).1.
Proof.
  intros Hv Hj.
  destruct (list_index_inside _ _ Hj) as (i & Ei & Hi & Hz).
  exists (<[v := <[i := x]> cs]> h).
  assert ((<[v := <[i := x]> cs]> h) !! v = Some (<[i := x]> cs)) as Hv'
    by (apply list_lookup_insert_eq; eapply lookup_lt_Some, Hv).
  split; [|split; [|split]].
  - rewrite (setitem_run _ _ _ _ _ Hv). unfold list_setitem. rewrite Ei. reflexivity.
  - rewrite (getitem_run _ _ _ _ Hv'). unfold list_getitem.
    rewrite length_insert, Ei, list_lookup_insert_eq by exact Hi. reflexivity.
  - rewrite (len_run _ _ _ Hv'), length_insert. reflexivity.
  - intros k (Hk1 & Hk2 & Hk3).
    rewrite (getitem_run _ _ _ _ Hv'), (getitem_run _ _ _ _ Hv). simpl.
    unfold list_getitem. rewrite length_insert.
    destruct (list_index (length cs) k) as [ik|] eqn:Ek; [|reflexivity].
    rewrite list_lookup_insert_ne; [reflexivity|].
    intros <-. unfold list_index in Ei, Ek.
    destruct (j <? 0) eqn:Ej, (k <? 0) eqn:Ekk;
      repeat match goal with
      | H : context [if ?c then None else Some _] |- _ =>
          destruct c eqn:?; [discriminate H|injection H as H]
      end; lia.
Qed.

Lemma setitem_then_getitem_witness :
  exists h',
    __setitem__ 0%nat (-1) (SInt 45) [[SInt 0; SInt 23; SInt 0]] = (Ok tt, h') /\
    __getitem__ 0%nat (-1) h' = (Ok (SInt 45), h') /\
    __getitem__ 0%nat 2 h' = (Ok (SInt 45), h').
Proof.
  destruct (setitem_then_getitem [[SInt 0; SInt 23; SInt 0]] 0%nat
              [SInt 0; SInt 23; SInt 0] (-1) (SInt 45) eq_refl)
    as (h' & E & Hget & _); [simpl; lia|].
  exists h'. split; [exact E|]. split; [exact Hget|].
  vm_compute in E. injection E as <-. reflexivity.
Defined.

(** X5. An indexed write, whether it returns or raises, changes no other
    instance and leaves the length of the vector as it was. *)
Theorem setitem_keeps_length (h : heap) (v : loc) (j : Z) (x : scalar) :
  only_changes v h (__setitem__ v j x h).2 /\
  (__len__ v (__setitem__ v j x h).2).1 = (__len__ v h).1.
Proof.
  destruct (h !! v) as [cs|] eqn:Hv.
  - rewrite (setitem_run _ _ _ _ _ Hv). unfold list_setitem.
    destruct (list_index (length cs) j) as [i|]; simpl.
    + split.
      * split; [apply length_insert|].
        intros l Hl. apply list_lookup_insert_ne. congruence.
      * assert ((<[v := <[i := x]> cs]> h) !! v = Some (<[i := x]> cs)) as Hv'
          by (apply list_lookup_insert_eq; eapply lookup_lt_Some, Hv).
        rewrite (len_run _ _ _ Hv'), (len_run _ _ _ Hv), length_insert. reflexivity.
    + split; [|reflexivity]. split; [reflexivity|]. intros; reflexivity.
  - unfold __setitem__. rewrite bind_run, (get_coords_dangling _ _ Hv). simpl.
    split; [|reflexivity]. split; [reflexivity|]. intros; reflexivity.
Qed.

End Copies.

(** ** Sums and differences *)

Module Sums.
Import Py Vector Spec Run Errors Iteration Elementwise FloatFacts Algebra Copies.

(** What [__add__] and [__sub__] return on operands of one length whose
    coordinates the operator accepts. *)
Lemma elementwise_coordinates op h a other ca cb :
  h !! a = Some ca -> items h other = Some cb -> length ca = length cb ->
  (forall j x y, ca !! j = Some x -> cb !! j = Some y -> is_Ok (op x y) = true) ->
  exists w h',
    elementwise op a other h = (Ok w, h') /\
    h !! w = None /\
    __len__ w h' = (Ok (length ca), h') /\
    forall j x y, ca !! j = Some x -> cb !! j = Some y ->
      __getitem__ w (Z.of_nat j) h' = (op x y, h').
Proof.
  intros Ha Hb Hlen Hdef.
  destruct (consume_total (zip_with op ca cb)) as [cs Ecs].
  { intros r Hr. apply list_elem_of_lookup_1 in Hr as [j Ej].
    apply lookup_zip_with_Some in Ej as (x & y & -> & Hx & Hy). eauto. }
  apply consume_Ok in Ecs.
  exists (length h), (h ++ [cs]).
  pose proof (alloc_lookup_new h cs) as Hw.
  split; [apply (elementwise_run op h a other ca cb cs); auto|].
  split; [apply fresh_None|]. split.
  - rewrite (len_run _ _ _ Hw). do 2 f_equal.
    rewrite <- (length_fmap Ok cs), <- Ecs, length_zip_with. lia.
  - intros j x y Hx Hy. rewrite (getitem_run _ _ _ _ Hw). f_equal.
    assert (zip_with op ca cb !! j = Some (op x y)) as Ej
      by (apply lookup_zip_with_Some; eauto).
    rewrite Ecs, list_lookup_fmap in Ej.
    destruct (cs !! j) as [c|] eqn:Ec; [|discriminate].
    injection Ej as <-. apply list_getitem_nat, Ec.
Qed.

(** X6. The sum of a vector and a vector, a list or a [str] of the same
    length, when every [a[j] + b[j]] is defined, is a new vector of that
    length whose coordinate [j] is [a[j] + b[j]]. *)
Theorem add_coordinates (h : heap) (a : loc) (other : value) (ca cb : list scalar) :
  h !! a = Some ca -> items h other = Some cb -> length ca = length cb ->
  (forall j x y, ca !! j = Some x -> cb !! j = Some y -> is_Ok (py_add x y) = true) ->
  exists w h',
    __add__ a other h = (Ok w, h') /\
    h !! w = None /\
    __len__ w h' = (Ok (length ca), h') /\
    forall j x y, ca !! j = Some x -> cb !! j = Some y ->
      __getitem__ w (Z.of_nat j) h' = (py_add x y, h').
Proof. rewrite add_elementwise. apply elementwise_coordinates. Qed.

Lemma add_coordinates_witness :
  exists w h',
    __add__ 0%nat (VList [SInt 1; SFloat 0.5]) [[SInt 46; SInt 69]] = (Ok w, h') /\
    __len__ w h' = (Ok 2%nat, h') /\
    __getitem__ w 1 h' = (Ok (SFloat 69.5), h').
Proof.
  destruct (add_coordinates [[SInt 46; SInt 69]] 0%nat (VList [SInt 1; SFloat 0.5])
              [SInt 46; SInt 69] [SInt 1; SFloat 0.5] eq_refl eq_refl eq_refl)
    as (w & h' & E & _ & Hlen & Hget).
  { intros [|[|j]] x y Hx Hy; simpl in Hx, Hy; simplify_eq; reflexivity. }
  exists w, h'. split; [exact E|]. split; [exact Hlen|].
  exact (Hget 1%nat (SInt 69) (SFloat 0.5) eq_refl eq_refl).
Defined.

(** X7. The difference of a vector and a vector or a list of the same length,
    when every [a[j] - b[j]] is defined, is a new vector of that length whose
    coordinate [j] is [a[j] - b[j]]. *)
Theorem sub_coordinates (h : heap) (a : loc) (other : value) (ca cb : list scalar) :
  h !! a = Some ca -> items h other = Some cb -> length ca = length cb ->
  (forall j x y, ca !! j = Some x -> cb !! j = Some y -> is_Ok (py_sub x y) = true) ->
  exists w h',
    __sub__ a other h = (Ok w, h') /\
    h !! w = None /\
    __len__ w h' = (Ok (length ca), h') /\
    forall j x y, ca !! j = Some x -> cb !! j = Some y ->
      __getitem__ w (Z.of_nat j) h' = (py_sub x y, h').
Proof. rewrite sub_elementwise. apply elementwise_coordinates. Qed.

Lemma sub_coordinates_witness :
  exists w h',
    __sub__ 1%nat (VVec 0%nat) [[SInt 0; SInt 23]; [SInt 0; SInt 46]] = (Ok w, h') /\
    __len__ w h' = (Ok 2%nat, h') /\
    __getitem__ w 1 h' = (Ok (SInt 23), h').
Proof.
  destruct (sub_coordinates [[SInt 0; SInt 23]; [SInt 0; SInt 46]] 1%nat (VVec 0%nat)
              [SInt 0; SInt 46] [SInt 0; SInt 23] eq_refl eq_refl eq_refl)
    as (w & h' & E & _ & Hlen & Hget).
  { intros [|[|j]] x y Hx Hy; simpl in Hx, Hy; simplify_eq; reflexivity. }
  exists w, h'. split; [exact E|]. split; [exact Hlen|].
  exact (Hget 1%nat (SInt 46) (SInt 23) eq_refl eq_refl).
Defined.

(** X8. With an operand that has no length ([None], a [bool], an [int] or a
    [float]), [+], [-], [<] and [<=] raise the [TypeError] of [len], and
    make no vector. *)
Theorem scalar_operand_raises (h : heap) (a : loc) (ca : list scalar) (s : scalar) :
  h !! a = Some ca -> (forall t, s <> SStr t) ->
  __add__ a (VScalar s) h = (Raise (Exn TypeError Builtin), h) /\
  __sub__ a (VScalar s) h = (Raise (Exn TypeError Builtin), h) /\
  __lt__ a (VScalar s) h = (Raise (Exn TypeError Builtin), h) /\
  __le__ a (VScalar s) h = (Raise (Exn TypeError Builtin), h).
Proof.
  intros Ha Hs.
  assert (py_len (VScalar s) h = (Raise (Exn TypeError Builtin), h)) as E
    by (destruct s as [| | | |t]; try reflexivity; destruct (Hs t eq_refl)).
  unfold __add__, __sub__, __lt__, __le__.
  rewrite !(bind_ok _ _ _ _ _ (len_run _ _ _ Ha)).
  rewrite !(bind_raise _ _ _ _ _ E). repeat split.
Qed.

Lemma scalar_operand_raises_witness :
  __add__ 0%nat (VScalar (SInt 5)) [[SInt 1]] = (Raise (Exn TypeError Builtin), [[SInt 1]]) /\
  __sub__ 0%nat (VScalar (SInt 5)) [[SInt 1]] = (Raise (Exn TypeError Builtin), [[SInt 1]]) /\
  __lt__ 0%nat (VScalar (SInt 5)) [[SInt 1]] = (Raise (Exn TypeError Builtin), [[SInt 1]]) /\
  __le__ 0%nat (VScalar (SInt 5)) [[SInt 1]] = (Raise (Exn TypeError Builtin), [[SInt 1]]).
Proof.
  apply (scalar_operand_raises [[SInt 1]] 0%nat [SInt 1] (SInt 5) eq_refl).
  intros t. discriminate.
Defined.

End Sums.

(** ** Laws of addition and subtraction *)

Module Laws.
Import Py Vector Spec Run Errors Iteration Elementwise FloatFacts Algebra Copies.

(** *** On floats *)

Lemma float_of_int_0 : float_of_int 0 = Ok 0%float.
Proof. vm_compute. reflexivity. Qed.

Lemma Prim2SF_0 : Prim2SF 0%float = S754_zero false.
Proof. vm_compute. reflexivity. Qed.

(** [f + 0.0 == f] unless [f] is a NaN. *)
Lemma float_add_0 f :
  PrimFloat.is_nan f = false -> float_compare (f + 0) f = Some Eq.
Proof.
  intros Hn. unfold float_compare.
  rewrite FloatAxioms.compare_spec, FloatAxioms.add_spec, Prim2SF_0.
  pose proof (Prim2SF_not_nan f Hn) as Hp. unfold SF64add.
  destruct (Prim2SF f) as [s|s| |s m e].
  - destruct s; reflexivity.
  - destruct s; reflexivity.
  - destruct (Hp eq_refl).
  - cbn [SFadd]. rewrite SFcompare_refl by discriminate. reflexivity.
Qed.

Lemma SFsub_diag x :
  x <> S754_nan -> (forall s, x <> S754_infinity s) ->
  exists s, SFsub prec emax x x = S754_zero s.
Proof.
  destruct x as [s|s| |s m e]; intros Hn Hi.
  - destruct s; simpl; eauto.
  - destruct (Hi s eq_refl).
  - destruct (Hn eq_refl).
  - exists false. unfold SFsub. rewrite Z.sub_diag. reflexivity.
Qed.

(** [f - f == 0] when [f] is finite. *)
Lemma float_sub_diag f :
  PrimFloat.is_nan f = false -> PrimFloat.is_infinity f = false ->
  Z_compare_float 0 (f - f) = Some Eq.
Proof.
  intros Hn Hi. unfold Z_compare_float.
  rewrite FloatAxioms.sub_spec. unfold SF64sub.
  destruct (SFsub_diag (Prim2SF f)) as [s ->].
  - apply Prim2SF_not_nan, Hn.
  - intros s. apply Prim2SF_not_infinity; assumption.
  - reflexivity.
Qed.

(** *** On scalars *)

Lemma py_add_comm_int x y :
  is_int x = true -> is_int y = true ->
  exists s t, py_add x y = Ok s /\ py_add y x = Ok t /\ py_eq s t = true.
Proof.
  intros Hx Hy.
  exists (SInt (int_of x + int_of y)), (SInt (int_of y + int_of x)).
  split; [destruct x, y; try discriminate; reflexivity|].
  split; [destruct x, y; try discriminate; reflexivity|].
  apply py_eq_int; [reflexivity|simpl; lia].
Qed.

Lemma py_sub_as_add_neg x y :
  is_int x = true -> is_int y = true ->
  exists d n s,
    py_sub x y = Ok d /\ py_neg y = Ok n /\ py_add x n = Ok s /\ py_eq d s = true.
Proof.
  intros Hx Hy.
  exists (SInt (int_of x - int_of y)), (SInt (- int_of y)),
    (SInt (int_of x + - int_of y)).
  split; [destruct x, y; try discriminate; reflexivity|].
  split; [destruct y; try discriminate; reflexivity|].
  split; [destruct x; try discriminate; reflexivity|].
  apply py_eq_int; [reflexivity|simpl; lia].
Qed.

Lemma py_add_0 x :
  is_ordered_number x = true ->
  exists s, py_add x (SInt 0) = Ok s /\ py_eq s x = true.
Proof.
  destruct x as [|b|n|f|t]; intros Hx; try discriminate.
  - exists (SInt (Z.b2z b + 0)). split; [reflexivity|].
    apply py_eq_int; [reflexivity|simpl; lia].
  - exists (SInt (n + 0)). split; [reflexivity|].
    apply py_eq_int; [reflexivity|simpl; lia].
  - exists (SFloat (f + 0)). split.
    + unfold py_add, to_num, num_binop, result_map, result_bind.
      rewrite float_of_int_0. reflexivity.
    + unfold py_eq, to_num, num_compare.
      rewrite float_add_0; [reflexivity|]. apply negb_true_iff, Hx.
Qed.

Lemma py_sub_diag x :
  is_finite_number x = true ->
  exists d, py_sub x x = Ok d /\ py_eq d (SInt 0) = true.
Proof.
  destruct x as [|b|n|f|t]; intros Hx; try discriminate.
  - exists (SInt (Z.b2z b - Z.b2z b)). split; [reflexivity|].
    unfold py_eq; simpl. rewrite Z.sub_diag. reflexivity.
  - exists (SInt (n - n)). split; [reflexivity|].
    unfold py_eq; simpl. rewrite Z.sub_diag. reflexivity.
  - exists (SFloat (f - f)). split; [reflexivity|].
    apply andb_true_iff in Hx as [Hn Hi].
    apply negb_true_iff in Hn. apply negb_true_iff in Hi.
    unfold py_eq, to_num, num_compare.
    rewrite (float_sub_diag _ Hn Hi). reflexivity.
Qed.

(** *** On lists of coordinates *)

Lemma add_comm_lists ca : forall cb,
  length ca = length cb ->
  Forall (fun c => is_int c = true) ca -> Forall (fun c => is_int c = true) cb ->
  exists ss ts,
    zip_with py_add ca cb = Ok <$> ss /\ zip_with py_add cb ca = Ok <$> ts /\
    list_eq ss ts = true.
Proof.
  induction ca as [|x ca IH]; intros [|y cb] Hlen Fa Fb; try discriminate.
  - exists [], []. repeat split.
  - apply Forall_cons in Fa as [Hx Fa]. apply Forall_cons in Fb as [Hy Fb].
    destruct (IH cb) as (ss & ts & E1 & E2 & E3); [simpl in Hlen; lia|done|done|].
    destruct (py_add_comm_int x y Hx Hy) as (s & t & Hs & Ht & He).
    exists (s :: ss), (t :: ts). simpl.
    rewrite Hs, E1, Ht, E2, He, E3. repeat split.
Qed.

Lemma sub_as_add_neg_lists ca : forall cb,
  length ca = length cb ->
  Forall (fun c => is_int c = true) ca -> Forall (fun c => is_int c = true) cb ->
  exists ds ns ss,
    zip_with py_sub ca cb = Ok <$> ds /\ py_neg <$> cb = Ok <$> ns /\
    length ns = length cb /\
    zip_with py_add ca ns = Ok <$> ss /\ list_eq ds ss = true.
Proof.
  induction ca as [|x ca IH]; intros [|y cb] Hlen Fa Fb; try discriminate.
  - exists [], [], []. repeat split.
  - apply Forall_cons in Fa as [Hx Fa]. apply Forall_cons in Fb as [Hy Fb].
    destruct (IH cb) as (ds & ns & ss & E1 & E2 & L & E3 & E4);
      [simpl in Hlen; lia|done|done|].
    destruct (py_sub_as_add_neg x y Hx Hy) as (d & n & s & Hd & Hn & Hs & He).
    exists (d :: ds), (n :: ns), (s :: ss). simpl.
    change (list_fmap scalar (result scalar) py_neg) with (fmap (M:=list) py_neg).
    change (list_fmap scalar (result scalar) Ok) with (fmap (M:=list) (@Ok scalar)).
    rewrite Hd, E1, Hn, E2, Hs, E3, He, E4, L. repeat split.
Qed.

Lemma add_0_list cs :
  Forall (fun c => is_ordered_number c = true) cs ->
  exists ss,
    zip_with py_add cs (replicate (length cs) (SInt 0)) = Ok <$> ss /\
    list_eq ss cs = true.
Proof.
  induction 1 as [|x cs Hx _ (ss & E1 & E2)].
  - exists []. repeat split.
  - destruct (py_add_0 x Hx) as (s & Hs & He).
    exists (s :: ss). simpl. rewrite Hs, E1, He, E2. repeat split.
Qed.

Lemma sub_diag_list cs :
  Forall (fun c => is_finite_number c = true) cs ->
  exists ds,
    zip_with py_sub cs cs = Ok <$> ds /\
    list_eq ds (replicate (length cs) (SInt 0)) = true.
Proof.
  induction 1 as [|x cs Hx _ (ds & E1 & E2)].
  - exists []. repeat split.
  - destruct (py_sub_diag x Hx) as (d & Hd & He).
    exists (d :: ds). simpl. rewrite Hd, E1, He, E2. repeat split.
Qed.

(** *** On vectors *)

(** X9. Addition commutes on vectors of [int]s: for two of one length,
    [a + b == b + a]. *)
Theorem add_comm_int (h : heap) (a b : loc) (ca cb : list scalar) :
  h !! a = Some ca -> h !! b = Some cb -> length ca = length cb ->
  Forall (fun c => is_int c = true) ca -> Forall (fun c => is_int c = true) cb ->
  exists s h1 t h2,
    __add__ a (VVec b) h = (Ok s, h1) /\
    __add__ b (VVec a) h1 = (Ok t, h2) /\
    __eq__ s (VVec t) h2 = (Ok true, h2).
Proof.
  intros Ha Hb Hlen Fa Fb.
  destruct (add_comm_lists ca cb) as (ss & ts & E1 & E2 & E3); [done..|].
  exists (length h), (h ++ [ss]), (length (h ++ [ss])), ((h ++ [ss]) ++ [ts]).
  split; [|split].
  - rewrite add_elementwise.
    apply (elementwise_run py_add h a (VVec b) ca cb ss); [done|done|lia|done].
  - rewrite add_elementwise.
    apply (elementwise_run py_add (h ++ [ss]) b (VVec a) cb ca ts);
      [apply lookup_app_l_Some, Hb|apply lookup_app_l_Some, Ha|lia|done].
  - rewrite (eq_run _ _ _ ss ts), E3; [reflexivity| |apply alloc_lookup_new].
    apply lookup_app_l_Some, alloc_lookup_new.
Qed.

Lemma add_comm_int_witness :
  exists s h1 t h2,
    __add__ 0%nat (VVec 1%nat) [[SInt 1; SBool true]; [SInt (-4); SInt 7]] = (Ok s, h1) /\
    __add__ 1%nat (VVec 0%nat) h1 = (Ok t, h2) /\
    __eq__ s (VVec t) h2 = (Ok true, h2).
Proof.
  apply (add_comm_int [[SInt 1; SBool true]; [SInt (-4); SInt 7]] 0%nat 1%nat
           [SInt 1; SBool true] [SInt (-4); SInt 7]);
    [reflexivity|reflexivity|reflexivity|repeat constructor|repeat constructor].
Defined.

(** X10. On vectors of [int]s of one length, subtracting is adding the
    negation: [a - b == a + (-b)]. *)
Theorem sub_is_add_neg (h : heap) (a b : loc) (ca cb : list scalar) :
  h !! a = Some ca -> h !! b = Some cb -> length ca = length cb ->
  Forall (fun c => is_int c = true) ca -> Forall (fun c => is_int c = true) cb ->
  exists d h1 n h2 s h3,
    __sub__ a (VVec b) h = (Ok d, h1) /\
    __neg__ b h1 = (Ok n, h2) /\
    __add__ a (VVec n) h2 = (Ok s, h3) /\
    __eq__ d (VVec s) h3 = (Ok true, h3).
Proof.
  intros Ha Hb Hlen Fa Fb.
  destruct (sub_as_add_neg_lists ca cb) as (ds & ns & ss & E1 & E2 & L & E3 & E4);
    [done..|].
  exists (length h), (h ++ [ds]), (length (h ++ [ds])), ((h ++ [ds]) ++ [ns]),
    (length ((h ++ [ds]) ++ [ns])), (((h ++ [ds]) ++ [ns]) ++ [ss]).
  split; [|split; [|split]].
  - rewrite sub_elementwise.
    apply (elementwise_run py_sub h a (VVec b) ca cb ds); [done|done|lia|done].
  - apply (neg_run_ok _ _ cb); [apply lookup_app_l_Some, Hb|done].
  - rewrite add_elementwise.
    apply (elementwise_run py_add ((h ++ [ds]) ++ [ns]) a
             (VVec (length (h ++ [ds]))) ca ns ss);
      [do 2 apply lookup_app_l_Some; exact Ha|apply alloc_lookup_new|lia|done].
  - rewrite (eq_run _ _ _ ds ss), E4; [reflexivity| |apply alloc_lookup_new].
    do 2 apply lookup_app_l_Some. apply alloc_lookup_new.
Qed.

Lemma sub_is_add_neg_witness :
  exists d h1 n h2 s h3,
    __sub__ 0%nat (VVec 1%nat) [[SInt 46; SInt 69]; [SInt 23; SBool true]] = (Ok d, h1) /\
    __neg__ 1%nat h1 = (Ok n, h2) /\
    __add__ 0%nat (VVec n) h2 = (Ok s, h3) /\
    __eq__ d (VVec s) h3 = (Ok true, h3).
Proof.
  apply (sub_is_add_neg [[SInt 46; SInt 69]; [SInt 23; SBool true]] 0%nat 1%nat
           [SInt 46; SInt 69] [SInt 23; SBool true]);
    [reflexivity|reflexivity|reflexivity|repeat constructor|repeat constructor].
Defined.

(** X11. The zero vector is neutral: for a vector [v] of [int]s and of
    [float]s other than NaN, [v + Vector(len(v)) == v]. *)
Theorem add_zero_vector (h : heap) (v : loc) (cs : list scalar) :
  h !! v = Some cs -> Forall (fun c => is_ordered_number c = true) cs ->
  exists z h1 s h2,
    __init__ (Arg (VScalar (SInt (Z.of_nat (length cs))))) h = (Ok z, h1) /\
    __add__ v (VVec z) h1 = (Ok s, h2) /\
    __eq__ s (VVec v) h2 = (Ok true, h2).
Proof.
  intros Hv F. destruct (add_0_list cs F) as (ss & E1 & E2).
  set (zs := replicate (length cs) (SInt 0)) in *.
  exists (length h), (h ++ [zs]), (length (h ++ [zs])), ((h ++ [zs]) ++ [ss]).
  split; [|split].
  - apply Construction.init_nat_run.
  - rewrite add_elementwise.
    apply (elementwise_run py_add (h ++ [zs]) v (VVec (length h)) cs zs ss);
      [apply lookup_app_l_Some, Hv|apply alloc_lookup_new|apply length_replicate|done].
  - rewrite (eq_run _ _ _ ss cs), E2; [reflexivity|apply alloc_lookup_new|].
    do 2 apply lookup_app_l_Some. exact Hv.
Qed.

Lemma add_zero_vector_witness :
  exists z h1 s h2,
    __init__ (Arg (VScalar (SInt 3))) [[SInt 3; SFloat (-0); SFloat infinity]] = (Ok z, h1) /\
    __add__ 0%nat (VVec z) h1 = (Ok s, h2) /\
    __eq__ s (VVec 0%nat) h2 = (Ok true, h2).
Proof.
  apply (add_zero_vector [[SInt 3; SFloat (-0); SFloat infinity]] 0%nat
           [SInt 3; SFloat (-0); SFloat infinity] eq_refl).
  repeat constructor.
Defined.

(** X12. A vector of [int]s and of finite [float]s minus itself is the zero
    vector: [v - v == Vector(len(v))]. *)
Theorem sub_self (h : heap) (v : loc) (cs : list scalar) :
  h !! v = Some cs -> Forall (fun c => is_finite_number c = true) cs ->
  exists d h1 z h2,
    __sub__ v (VVec v) h = (Ok d, h1) /\
    __init__ (Arg (VScalar (SInt (Z.of_nat (length cs))))) h1 = (Ok z, h2) /\
    __eq__ d (VVec z) h2 = (Ok true, h2).
Proof.
  intros Hv F. destruct (sub_diag_list cs F) as (ds & E1 & E2).
  set (zs := replicate (length cs) (SInt 0)) in *.
  exists (length h), (h ++ [ds]), (length (h ++ [ds])), ((h ++ [ds]) ++ [zs]).
  split; [|split].
  - rewrite sub_elementwise.
    apply (elementwise_run py_sub h v (VVec v) cs cs ds); done.
  - apply Construction.init_nat_run.
  - rewrite (eq_run _ _ _ ds zs), E2; [reflexivity| |apply alloc_lookup_new].
    apply lookup_app_l_Some, alloc_lookup_new.
Qed.

Lemma sub_self_witness :
  exists d h1 z h2,
    __sub__ 0%nat (VVec 0%nat) [[SInt 3; SFloat 2.5; SBool true]] = (Ok d, h1) /\
    __init__ (Arg (VScalar (SInt 3))) h1 = (Ok z, h2) /\
    __eq__ d (VVec z) h2 = (Ok true, h2).
Proof.
  apply (sub_self [[SInt 3; SFloat 2.5; SBool true]] 0%nat
           [SInt 3; SFloat 2.5; SBool true] eq_refl).
  repeat constructor.
Defined.

End Laws.

(** ** Scaling and negation *)

Module Scaling.
Import Py Vector Spec Run Errors Iteration Elementwise Algebra.

(** A vector built from a generator that maps [f] over coordinates on which
    [f] is defined. *)
Lemma init_map_coordinates (f : scalar -> result scalar) h cs :
  (forall c, c ∈ cs -> is_Ok (f c) = true) ->
  exists w h',
    __init__ (Gen (f <$> cs)) h = (Ok w, h') /\
    h !! w = None /\
    __len__ w h' = (Ok (length cs), h') /\
    forall j c, cs !! j = Some c -> __getitem__ w (Z.of_nat j) h' = (f c, h').
Proof.
  intros Hdef.
  destruct (consume_total (f <$> cs)) as [rs Ers].
  { intros r Hr. apply list_elem_of_fmap in Hr as (c & -> & Hc). auto. }
  exists (length h), (h ++ [rs]).
  pose proof (alloc_lookup_new h rs) as Hw.
  split; [exact (init_gen_ok _ _ _ Ers)|]. split; [apply fresh_None|].
  apply consume_Ok in Ers. split.
  - rewrite (len_run _ _ _ Hw). do 2 f_equal.
    rewrite <- (length_fmap Ok rs), <- Ers, length_fmap. reflexivity.
  - intros j c Hc. rewrite (getitem_run _ _ _ _ Hw). f_equal.
    assert ((f <$> cs) !! j = Some (f c)) as Ej
      by (rewrite list_lookup_fmap, Hc; reflexivity).
    rewrite Ers, list_lookup_fmap in Ej.
    destruct (rs !! j) as [r|] eqn:Er; [|discriminate].
    injection Ej as <-. apply list_getitem_nat, Er.
Qed.

Lemma mul_scalar_run h v cs s :
  h !! v = Some cs -> is_number s = true ->
  __mul__ v (VScalar s) h = __init__ (Gen ((fun c => py_mul c s) <$> cs)) h.
Proof.
  intros Hv Hs. unfold __mul__.
  assert (is_float_int_Vector (VScalar s) = true) as ->
    by (destruct s; try discriminate; reflexivity).
  cbn [negb]. rewrite (bind_ok _ _ _ _ _ (iter_vector_run _ _ _ Hv)). reflexivity.
Qed.

(** X13. The product of a vector and a number [s] (on either side of [*]),
    when every [v[j] * s] is defined, is a new vector of the same length
    whose coordinate [j] is [v[j] * s]. *)
Theorem mul_scalar_coordinates (h : heap) (v : loc) (cs : list scalar) (s : scalar) :
  h !! v = Some cs -> is_number s = true ->
  (forall c, c ∈ cs -> is_Ok (py_mul c s) = true) ->
  exists w h',
    __mul__ v (VScalar s) h = (Ok w, h') /\
    __rmul__ v (VScalar s) h = (Ok w, h') /\
    h !! w = None /\
    __len__ w h' = (Ok (length cs), h') /\
    forall j c, cs !! j = Some c ->
      __getitem__ w (Z.of_nat j) h' = (py_mul c s, h').
Proof.
  intros Hv Hs Hdef. unfold __rmul__. rewrite (mul_scalar_run _ _ _ _ Hv Hs).
  destruct (init_map_coordinates (fun c => py_mul c s) h cs Hdef)
    as (w & h' & E & Hnew & Hlen & Hget).
  exists w, h'. auto.
Qed.

Lemma mul_scalar_coordinates_witness :
  exists w h',
    __mul__ 0%nat (VScalar (SFloat 3.5)) [[SInt 0; SInt 46; SInt 69]] = (Ok w, h') /\
    __rmul__ 0%nat (VScalar (SFloat 3.5)) [[SInt 0; SInt 46; SInt 69]] = (Ok w, h') /\
    __len__ w h' = (Ok 3%nat, h') /\
    __getitem__ w 2 h' = (Ok (SFloat 241.5), h').
Proof.
  destruct (mul_scalar_coordinates [[SInt 0; SInt 46; SInt 69]] 0%nat
              [SInt 0; SInt 46; SInt 69] (SFloat 3.5) eq_refl eq_refl)
    as (w & h' & E & E' & _ & Hlen & Hget).
  { intros c Hc. apply list_elem_of_lookup_1 in Hc as [[|[|[|j]]] Hj];
      simpl in Hj; simplify_eq; vm_compute; reflexivity. }
  exists w, h'. split; [exact E|]. split; [exact E'|]. split; [exact Hlen|].
  pose proof (Hget 2%nat (SInt 69) eq_refl) as G.
  change (Z.of_nat 2) with 2 in G. rewrite G. f_equal.
Defined.

Lemma py_neg_number c : is_number c = true -> is_Ok (py_neg c) = true.
Proof. destruct c; try discriminate; reflexivity. Qed.

(** X14. The negation of a vector of numbers always succeeds: it is a new
    vector of the same length whose coordinate [j] is [-v[j]]. *)
Theorem neg_coordinates (h : heap) (v : loc) (cs : list scalar) :
  h !! v = Some cs -> Forall (fun c => is_number c = true) cs ->
  exists w h',
    __neg__ v h = (Ok w, h') /\
    h !! w = None /\
    __len__ w h' = (Ok (length cs), h') /\
    forall j c, cs !! j = Some c ->
      __getitem__ w (Z.of_nat j) h' = (py_neg c, h') /\ is_Ok (py_neg c) = true.
Proof.
  intros Hv F. rewrite (neg_run _ _ _ Hv). rewrite Forall_forall in F.
  destruct (init_map_coordinates py_neg h cs) as (w & h' & E & Hnew & Hlen & Hget).
  { intros c Hc. apply py_neg_number, F, Hc. }
  exists w, h'. repeat split; auto.
  apply py_neg_number, F. eapply list_elem_of_lookup_2; eassumption.
Qed.

Lemma neg_coordinates_witness :
  exists w h',
    __neg__ 0%nat [[SInt 46; SBool true; SFloat 0]] = (Ok w, h') /\
    __len__ w h' = (Ok 3%nat, h') /\
    __getitem__ w 1 h' = (Ok (SInt (-1)), h').
Proof.
  destruct (neg_coordinates [[SInt 46; SBool true; SFloat 0]] 0%nat
              [SInt 46; SBool true; SFloat 0] eq_refl)
    as (w & h' & E & _ & Hlen & Hget); [repeat constructor|].
  exists w, h'. split; [exact E|]. split; [exact Hlen|].
  exact (proj1 (Hget 1%nat (SBool true) eq_refl)).
Defined.

Lemma consume_neg_non_number cs :
  Exists (fun c => is_number c = false) cs ->
  consume (py_neg <$> cs) = Raise (Exn TypeError Builtin).
Proof.
  induction cs as [|x cs IH]; intros Hex; [inversion Hex|].
  change (py_neg <$> x :: cs) with (py_neg x :: (py_neg <$> cs)).
  destruct (is_number x) eqn:Hx.
  - apply Exists_cons in Hex as [Hex|Hex]; [congruence|].
    cbn [consume]. rewrite (IH Hex).
    destruct x; try discriminate Hx; reflexivity.
  - destruct x; try discriminate Hx; reflexivity.
Qed.

(** X15. Negating a vector that has a coordinate which is not a number
    ([None] or a [str]) raises the constructor's
    [TypeError('invalid parameter type')], and makes no vector. *)
Theorem neg_non_number_raises (h : heap) (v : loc) (cs : list scalar) :
  h !! v = Some cs -> Exists (fun c => is_number c = false) cs ->
  __neg__ v h = (Raise (Exn TypeError (Msg "invalid parameter type")), h).
Proof.
  intros Hv Hex. rewrite (neg_run _ _ _ Hv).
  rewrite (init_gen_raise _ _ _ (consume_neg_non_number _ Hex)). reflexivity.
Qed.

Lemma neg_non_number_raises_witness :
  __neg__ 0%nat [[SInt 1; SStr "a"]]
  = (Raise (Exn TypeError (Msg "invalid parameter type")), [[SInt 1; SStr "a"]]).
Proof.
  apply (neg_non_number_raises [[SInt 1; SStr "a"]] 0%nat [SInt 1; SStr "a"] eq_refl).
  right. left. reflexivity.
Defined.

Lemma mul_minus_one_list cs :
  Forall (fun c => is_int c = true) cs ->
  exists ms ns,
    (fun c => py_mul c (SInt (-1))) <$> cs = Ok <$> ms /\
    py_neg <$> cs = Ok <$> ns /\ list_eq ms ns = true.
Proof.
  induction 1 as [|x cs Hx _ (ms & ns & E1 & E2 & E3)].
  - exists [], []. repeat split.
  - exists (SInt (int_of x * -1) :: ms), (SInt (- int_of x) :: ns).
    rewrite !fmap_cons, E1, E2. simpl. rewrite E3.
    assert (py_eq (SInt (int_of x * -1)) (SInt (- int_of x)) = true) as ->
      by (apply py_eq_int; [reflexivity|simpl; lia]).
    destruct x; try discriminate Hx; repeat split.
Qed.

(** X16. On a vector of [int]s, multiplying by -1 is negating:
    [v * -1 == -v]. *)
Theorem mul_minus_one_is_neg (h : heap) (v : loc) (cs : list scalar) :
  h !! v = Some cs -> Forall (fun c => is_int c = true) cs ->
  exists m h1 n h2,
    __mul__ v (VScalar (SInt (-1))) h = (Ok m, h1) /\
    __neg__ v h1 = (Ok n, h2) /\
    __eq__ m (VVec n) h2 = (Ok true, h2).
Proof.
  intros Hv F. destruct (mul_minus_one_list cs F) as (ms & ns & E1 & E2 & E3).
  exists (length h), (h ++ [ms]), (length (h ++ [ms])), ((h ++ [ms]) ++ [ns]).
  split; [|split].
  - rewrite (mul_scalar_run _ _ _ (SInt (-1)) Hv eq_refl).
    apply init_gen_ok, consume_Ok, E1.
  - apply (neg_run_ok _ _ cs); [apply lookup_app_l_Some, Hv|exact E2].
  - rewrite (eq_run _ _ _ ms ns), E3; [reflexivity| |apply alloc_lookup_new].
    apply lookup_app_l_Some, alloc_lookup_new.
Qed.

Lemma mul_minus_one_is_neg_witness :
  exists m h1 n h2,
    __mul__ 0%nat (VScalar (SInt (-1))) [[SInt 46; SBool true; SInt 0]] = (Ok m, h1) /\
    __neg__ 0%nat h1 = (Ok n, h2) /\
    __eq__ m (VVec n) h2 = (Ok true, h2).
Proof.
  apply (mul_minus_one_is_neg [[SInt 46; SBool true; SInt 0]] 0%nat
           [SInt 46; SBool true; SInt 0] eq_refl).
  repeat constructor.
Defined.

End Scaling.

(** ** Equality and order *)

Module Comparison.
Import Py Vector Spec Run Errors Iteration Elementwise Algebra Copies.

Lemma lt_run h a b ca cb :
  h !! a = Some ca -> h !! b = Some cb -> length ca = length cb ->
  __lt__ a (VVec b) h = (list_lt ca cb, h).
Proof.
  intros Ha Hb Hlen. unfold __lt__.
  rewrite (bind_ok _ _ _ _ _ (len_run _ _ _ Ha)).
  rewrite (bind_ok _ _ _ _ _ (py_len_run _ (VVec b) _ Hb)).
  rewrite Hlen, Nat.eqb_refl. cbn [negb getattr_coords].
  rewrite (bind_ok _ _ _ _ _ (get_coords_run _ _ _ Ha)).
  rewrite (bind_ok _ _ _ _ _ (get_coords_run _ _ _ Hb)). reflexivity.
Qed.

Lemma le_run h a b ca cb :
  h !! a = Some ca -> h !! b = Some cb -> length ca = length cb ->
  __le__ a (VVec b) h = (list_le ca cb, h).
Proof.
  intros Ha Hb Hlen. unfold __le__.
  rewrite (bind_ok _ _ _ _ _ (len_run _ _ _ Ha)).
  rewrite (bind_ok _ _ _ _ _ (py_len_run _ (VVec b) _ Hb)).
  rewrite Hlen, Nat.eqb_refl. cbn [negb getattr_coords].
  rewrite (bind_ok _ _ _ _ _ (get_coords_run _ _ _ Ha)).
  rewrite (bind_ok _ _ _ _ _ (get_coords_run _ _ _ Hb)). reflexivity.
Qed.

Lemma ne_run h a b ca cb :
  h !! a = Some ca -> h !! b = Some cb ->
  __ne__ a (VVec b) h = (Ok (negb (list_eq ca cb)), h).
Proof.
  intros Ha Hb. unfold __ne__.
  rewrite (bind_ok _ _ _ _ _ (eq_run _ _ _ _ _ Ha Hb)). reflexivity.
Qed.

(** *** On scalars and lists *)

Lemma py_compare_int x y :
  is_int x = true -> is_int y = true ->
  py_eq x y = (int_of x =? int_of y) /\
  py_lt x y = Ok (int_of x <? int_of y) /\
  py_le x y = Ok (int_of x <=? int_of y).
Proof.
  intros Hx Hy.
  assert (py_eq x y = match int_of x ?= int_of y with Eq => true | _ => false end /\
          py_lt x y = Ok (int_of x <? int_of y) /\
          py_le x y = Ok (int_of x <=? int_of y)) as (E & L & G).
  { destruct x, y; try discriminate; unfold py_eq, py_lt, py_le, Z.ltb, Z.leb; simpl;
      match goal with |- context [?a ?= ?b] => destruct (a ?= b) end; repeat split. }
  split; [|split; assumption]. rewrite E.
  destruct (Z.compare_spec (int_of x) (int_of y)), (Z.eqb_spec (int_of x) (int_of y));
    (reflexivity || lia).
Qed.

Lemma list_eq_length a : forall b, list_eq a b = true -> length a = length b.
Proof.
  induction a as [|x a IH]; intros [|y b]; simpl; try discriminate; [reflexivity|].
  intros E. apply andb_true_iff in E as [_ E]. f_equal. apply IH, E.
Qed.

Lemma list_order_refl cs :
  Forall (fun c => is_not_nan c = true) cs ->
  list_lt cs cs = Ok false /\ list_le cs cs = Ok true.
Proof.
  induction 1 as [|x cs Hx _ [IH1 IH2]]; simpl; [split; reflexivity|].
  rewrite (py_eq_refl _ Hx). split; assumption.
Qed.

Lemma int_order_lists ca : forall cb,
  length ca = length cb ->
  Forall (fun c => is_int c = true) ca -> Forall (fun c => is_int c = true) cb ->
  exists lt gt,
    list_lt ca cb = Ok lt /\ list_lt cb ca = Ok gt /\
    list_le ca cb = Ok (lt || list_eq ca cb) /\
    list_eq cb ca = list_eq ca cb /\
    ((lt = true /\ list_eq ca cb = false /\ gt = false) \/
     (lt = false /\ list_eq ca cb = true /\ gt = false) \/
     (lt = false /\ list_eq ca cb = false /\ gt = true)).
Proof.
  induction ca as [|x ca IH]; intros [|y cb] Hlen Fa Fb; try discriminate.
  - exists false, false. simpl. repeat split. right. left. repeat split.
  - apply Forall_cons in Fa as [Hx Fa]. apply Forall_cons in Fb as [Hy Fb].
    destruct (IH cb) as (lt & gt & E1 & E2 & E3 & E4 & E5);
      [simpl in Hlen; lia|done|done|].
    destruct (py_compare_int x y Hx Hy) as (Qe & Ql & Qg).
    destruct (py_compare_int y x Hy Hx) as (Qe' & Ql' & Qg').
    simpl. rewrite Qe, Qe', Ql, Ql', Qg.
    destruct (Z.compare_spec (int_of x) (int_of y)) as [Hc|Hc|Hc].
    + rewrite Hc, !Z.eqb_refl. simpl. exists lt, gt. auto.
    + rewrite (proj2 (Z.eqb_neq _ _)), (proj2 (Z.eqb_neq _ _)) by lia.
      rewrite (proj2 (Z.ltb_lt _ _)), (proj2 (Z.ltb_ge _ _)),
        (proj2 (Z.leb_le _ _)) by lia.
      exists true, false. simpl. repeat split. left. repeat split.
    + rewrite (proj2 (Z.eqb_neq _ _)), (proj2 (Z.eqb_neq _ _)) by lia.
      rewrite (proj2 (Z.ltb_ge _ _)), (proj2 (Z.ltb_lt _ _)),
        (proj2 (Z.leb_gt _ _)) by lia.
      exists false, true. simpl. repeat split. right. right. repeat split.
Qed.

Lemma int_lt_trans_lists ca : forall cb cc,
  Forall (fun c => is_int c = true) ca -> Forall (fun c => is_int c = true) cb ->
  Forall (fun c => is_int c = true) cc ->
  list_lt ca cb = Ok true -> list_lt cb cc = Ok true -> list_lt ca cc = Ok true.
Proof.
  induction ca as [|x ca IH]; intros [|y cb] [|z cc] Fa Fb Fc; simpl;
    try discriminate; try reflexivity.
  apply Forall_cons in Fa as [Hx Fa]. apply Forall_cons in Fb as [Hy Fb].
  apply Forall_cons in Fc as [Hz Fc].
  destruct (py_compare_int x y Hx Hy) as (-> & -> & _).
  destruct (py_compare_int y z Hy Hz) as (-> & -> & _).
  destruct (py_compare_int x z Hx Hz) as (-> & -> & _).
  destruct (Z.eqb_spec (int_of x) (int_of y)), (Z.eqb_spec (int_of y) (int_of z)),
    (Z.eqb_spec (int_of x) (int_of z));
    intros E1 E2;
    repeat match goal with
    | H : Ok (_ <? _) = Ok true |- _ => injection H as H; apply Z.ltb_lt in H
    end;
    first [ exfalso; lia
          | exact (IH cb cc Fa Fb Fc E1 E2)
          | f_equal; apply Z.ltb_lt; lia ].
Qed.

(** *** On vectors *)

(** X17. Between two vectors of [int]s of one length, exactly one of
    [a < b], [a == b] and [b < a] is [True], and [a <= b] is [True] when
    [a < b] or [a == b] is. *)
Theorem int_order_trichotomy (h : heap) (a b : loc) (ca cb : list scalar) :
  h !! a = Some ca -> h !! b = Some cb -> length ca = length cb ->
  Forall (fun c => is_int c = true) ca -> Forall (fun c => is_int c = true) cb ->
  exists lt eq gt,
    __lt__ a (VVec b) h = (Ok lt, h) /\
    __eq__ a (VVec b) h = (Ok eq, h) /\
    __lt__ b (VVec a) h = (Ok gt, h) /\
    __le__ a (VVec b) h = (Ok (lt || eq), h) /\
    ((lt = true /\ eq = false /\ gt = false) \/
     (lt = false /\ eq = true /\ gt = false) \/
     (lt = false /\ eq = false /\ gt = true)).
Proof.
  intros Ha Hb Hlen Fa Fb.
  destruct (int_order_lists ca cb Hlen Fa Fb) as (lt & gt & E1 & E2 & E3 & _ & E5).
  exists lt, (list_eq ca cb), gt.
  rewrite (lt_run _ _ _ _ _ Ha Hb Hlen), (lt_run _ _ _ _ _ Hb Ha (eq_sym Hlen)).
  rewrite (le_run _ _ _ _ _ Ha Hb Hlen), (eq_run _ _ _ _ _ Ha Hb).
  rewrite E1, E2, E3. auto.
Qed.

Lemma int_order_trichotomy_witness :
  exists lt eq gt,
    __lt__ 0%nat (VVec 1%nat) [[SInt 1; SInt 5]; [SInt 1; SInt 7]] =
      (Ok lt, [[SInt 1; SInt 5]; [SInt 1; SInt 7]]) /\
    __eq__ 0%nat (VVec 1%nat) [[SInt 1; SInt 5]; [SInt 1; SInt 7]] =
      (Ok eq, [[SInt 1; SInt 5]; [SInt 1; SInt 7]]) /\
    __lt__ 1%nat (VVec 0%nat) [[SInt 1; SInt 5]; [SInt 1; SInt 7]] =
      (Ok gt, [[SInt 1; SInt 5]; [SInt 1; SInt 7]]) /\
    __le__ 0%nat (VVec 1%nat) [[SInt 1; SInt 5]; [SInt 1; SInt 7]] =
      (Ok (lt || eq), [[SInt 1; SInt 5]; [SInt 1; SInt 7]]) /\
    ((lt = true /\ eq = false /\ gt = false) \/
     (lt = false /\ eq = true /\ gt = false) \/
     (lt = false /\ eq = false /\ gt = true)).
Proof.
  apply (int_order_trichotomy [[SInt 1; SInt 5]; [SInt 1; SInt 7]] 0%nat 1%nat
           [SInt 1; SInt 5] [SInt 1; SInt 7]);
    [reflexivity|reflexivity|reflexivity|repeat constructor|repeat constructor].
Defined.

(** X18. On vectors of [int]s of one length, [<] is transitive. *)
Theorem int_lt_trans (h : heap) (a b c : loc) (ca cb cc : list scalar) :
  h !! a = Some ca -> h !! b = Some cb -> h !! c = Some cc ->
  length ca = length cb -> length cb = length cc ->
  Forall (fun x => is_int x = true) ca -> Forall (fun x => is_int x = true) cb ->
  Forall (fun x => is_int x = true) cc ->
  __lt__ a (VVec b) h = (Ok true, h) -> __lt__ b (VVec c) h = (Ok true, h) ->
  __lt__ a (VVec c) h = (Ok true, h).
Proof.
  intros Ha Hb Hc Lab Lbc Fa Fb Fc.
  rewrite (lt_run _ _ _ _ _ Ha Hb Lab), (lt_run _ _ _ _ _ Hb Hc Lbc).
  rewrite (lt_run _ _ _ _ _ Ha Hc) by congruence.
  intros E1 E2. injection E1 as E1. injection E2 as E2. f_equal.
  exact (int_lt_trans_lists ca cb cc Fa Fb Fc E1 E2).
Qed.

Lemma int_lt_trans_witness :
  __lt__ 0%nat (VVec 2%nat) [[SInt 1; SInt 5]; [SInt 1; SInt 7]; [SInt 2; SInt 0]]
  = (Ok true, [[SInt 1; SInt 5]; [SInt 1; SInt 7]; [SInt 2; SInt 0]]).
Proof.
  apply (int_lt_trans [[SInt 1; SInt 5]; [SInt 1; SInt 7]; [SInt 2; SInt 0]]
           0%nat 1%nat 2%nat [SInt 1; SInt 5] [SInt 1; SInt 7] [SInt 2; SInt 0]);
    try reflexivity; repeat constructor.
Defined.

(** X19. A vector without NaN, whatever else its coordinates are, is equal
    to itself, [<=] itself and not [<] itself. *)
Theorem order_reflexive (h : heap) (v : loc) (cs : list scalar) :
  h !! v = Some cs -> Forall (fun c => is_not_nan c = true) cs ->
  __eq__ v (VVec v) h = (Ok true, h) /\
  __ne__ v (VVec v) h = (Ok false, h) /\
  __le__ v (VVec v) h = (Ok true, h) /\
  __lt__ v (VVec v) h = (Ok false, h).
Proof.
  intros Hv F. destruct (list_order_refl cs F) as [E1 E2].
  rewrite (eq_run _ _ _ _ _ Hv Hv), (ne_run _ _ _ _ _ Hv Hv).
  rewrite (le_run _ _ _ _ _ Hv Hv eq_refl), (lt_run _ _ _ _ _ Hv Hv eq_refl).
  rewrite (list_eq_refl _ F), E1, E2. repeat split.
Qed.

Lemma order_reflexive_witness :
  __eq__ 0%nat (VVec 0%nat) [[SNone; SStr "a"; SInt 1]] = (Ok true, [[SNone; SStr "a"; SInt 1]]) /\
  __ne__ 0%nat (VVec 0%nat) [[SNone; SStr "a"; SInt 1]] = (Ok false, [[SNone; SStr "a"; SInt 1]]) /\
  __le__ 0%nat (VVec 0%nat) [[SNone; SStr "a"; SInt 1]] = (Ok true, [[SNone; SStr "a"; SInt 1]]) /\
  __lt__ 0%nat (VVec 0%nat) [[SNone; SStr "a"; SInt 1]] = (Ok false, [[SNone; SStr "a"; SInt 1]]).
Proof.
  apply (order_reflexive [[SNone; SStr "a"; SInt 1]] 0%nat [SNone; SStr "a"; SInt 1] eq_refl).
  repeat constructor.
Defined.

(** X20. Two vectors of unequal lengths are unequal: [==] returns [False]
    and [!=] returns [True]; neither raises, unlike [<] and [<=]. *)
Theorem eq_unequal_lengths (h : heap) (a b : loc) (ca cb : list scalar) :
  h !! a = Some ca -> h !! b = Some cb -> length ca <> length cb ->
  __eq__ a (VVec b) h = (Ok false, h) /\ __ne__ a (VVec b) h = (Ok true, h).
Proof.
  intros Ha Hb Hne.
  rewrite (eq_run _ _ _ _ _ Ha Hb), (ne_run _ _ _ _ _ Ha Hb).
  destruct (list_eq ca cb) eqn:E; [|split; reflexivity].
  destruct (Hne (list_eq_length _ _ E)).
Qed.

Lemma eq_unequal_lengths_witness :
  __eq__ 0%nat (VVec 1%nat) [[SInt 1; SInt 2]; [SInt 1]] = (Ok false, [[SInt 1; SInt 2]; [SInt 1]]) /\
  __ne__ 0%nat (VVec 1%nat) [[SInt 1; SInt 2]; [SInt 1]] = (Ok true, [[SInt 1; SInt 2]; [SInt 1]]).
Proof.
  apply (eq_unequal_lengths [[SInt 1; SInt 2]; [SInt 1]] 0%nat 1%nat [SInt 1; SInt 2] [SInt 1]);
    [reflexivity|reflexivity|simpl; lia].
Defined.

(** X21. Compared by [<] or [<=] with a list or a [str] of its own length, a
    vector passes the length check and then raises [AttributeError]: the
    comparison reads the [_coords] of the other operand. *)
Theorem order_with_sequence_raises (h : heap) (a : loc) (x : value)
    (ca cb : list scalar) :
  h !! a = Some ca -> items h x = Some cb -> (forall o, x <> VVec o) ->
  length ca = length cb ->
  __lt__ a x h = (Raise (Exn AttributeError Builtin), h) /\
  __le__ a x h = (Raise (Exn AttributeError Builtin), h).
Proof.
  intros Ha Hx Hnv Hlen. unfold __lt__, __le__.
  rewrite !(bind_ok _ _ _ _ _ (len_run _ _ _ Ha)).
  rewrite !(bind_ok _ _ _ _ _ (py_len_run _ _ _ Hx)).
  rewrite Hlen, Nat.eqb_refl. cbn [negb].
  rewrite !(bind_ok _ _ _ _ _ (get_coords_run _ _ _ Ha)).
  destruct x as [s|l|o]; [split; reflexivity|split; reflexivity|].
  destruct (Hnv o eq_refl).
Qed.

Lemma order_with_sequence_raises_witness :
  __lt__ 0%nat (VList [SInt 1; SInt 2]) [[SInt 1; SInt 2]]
    = (Raise (Exn AttributeError Builtin), [[SInt 1; SInt 2]]) /\
  __le__ 0%nat (VList [SInt 1; SInt 2]) [[SInt 1; SInt 2]]
    = (Raise (Exn AttributeError Builtin), [[SInt 1; SInt 2]]).
Proof.
  apply (order_with_sequence_raises [[SInt 1; SInt 2]] 0%nat (VList [SInt 1; SInt 2])
           [SInt 1; SInt 2] [SInt 1; SInt 2]);
    [reflexivity|reflexivity|intros o; discriminate|reflexivity].
Defined.

End Comparison.

(** ** Rendering *)

Module Render.
Import Py Vector Spec Run.

Lemma substring_prefix (s t : string) :
  String.substring 0 (String.length s) (s ++ t)%string = s.
Proof.
  induction s as [|c s IH]; simpl.
  - destruct t; reflexivity.
  - rewrite IH. reflexivity.
Qed.

Lemma length_append_one (s : string) c :
  String.length (s ++ String c EmptyString)%string = S (String.length s).
Proof. induction s as [|d s IH]; simpl; [reflexivity|]. rewrite IH. reflexivity. Qed.

(** [('[' + s + ']')[1:-1]] is [s]. *)
Lemma slice_brackets (s : string) : slice_1_m1 ("[" ++ s ++ "]")%string = s.
Proof.
  unfold slice_1_m1. simpl. rewrite length_append_one. simpl.
  rewrite Nat.sub_0_r. apply substring_prefix.
Qed.

Section Rendered.
Variable repr_float : float -> string.
Variable repr_str : string -> string.

Lemma py_repr_raises c e :
  py_repr repr_float repr_str c = Raise e ->
  long_int c /\ e = Exn ValueError Builtin.
Proof.
  destruct c as [|[|]|n|f|t]; simpl; try discriminate.
  unfold repr_int. destruct (Nat.ltb_spec int_max_str_digits (int_digits n));
    intros E; [|discriminate E].
  injection E as <-. split; [exists n; auto|reflexivity].
Qed.

Lemma py_repr_long_int c :
  long_int c -> py_repr repr_float repr_str c = Raise (Exn ValueError Builtin).
Proof.
  intros (n & -> & Hn). simpl. unfold repr_int.
  destruct (Nat.ltb_spec int_max_str_digits (int_digits n)); [reflexivity|lia].
Qed.

Lemma repr_items_Ok cs rs :
  Forall2 (fun c r => py_repr repr_float repr_str c = Ok r) cs rs ->
  repr_items repr_float repr_str cs = Ok rs.
Proof.
  induction 1 as [|c r cs rs Hc _ IH]; simpl; [reflexivity|].
  rewrite Hc. simpl. rewrite IH. reflexivity.
Qed.

Lemma repr_items_long_int cs :
  Exists long_int cs ->
  repr_items repr_float repr_str cs = Raise (Exn ValueError Builtin).
Proof.
  induction cs as [|c cs IH]; intros Hex; [inversion Hex|]. simpl.
  destruct (py_repr repr_float repr_str c) as [r|e] eqn:Ec; simpl.
  - apply Exists_cons in Hex as [Hc|Hex].
    + rewrite (py_repr_long_int _ Hc) in Ec. discriminate Ec.
    + rewrite (IH Hex). reflexivity.
  - apply py_repr_raises in Ec as [_ ->]. reflexivity.
Qed.

(** X22. A vector renders as the [repr]s of its coordinates, separated by a
    comma and a space, between [<] and [>] (the empty vector as [<>]),
    whenever each coordinate has a [repr]; every scalar has one but an [int]
    of more than 4300 digits, and with such a coordinate the rendering raises
    the [ValueError] of the conversion. *)
Theorem str_renders (h : heap) (v : loc) (cs : list scalar) :
  h !! v = Some cs ->
  (forall rs,
     Forall2 (fun c r => py_repr repr_float repr_str c = Ok r) cs rs ->
     __str__ repr_float repr_str v h
     = (Ok ("<" ++ String.concat ", " rs ++ ">")%string, h)) /\
  (Exists long_int cs ->
   __str__ repr_float repr_str v h = (Raise (Exn ValueError Builtin), h)) /\
  (forall c, ~ long_int c -> is_Ok (py_repr repr_float repr_str c) = true).
Proof.
  intros Hv. unfold __str__.
  rewrite (bind_ok _ _ _ _ _ (get_coords_run _ _ _ Hv)).
  rewrite bind_run. unfold lift, str_of_list. split; [|split].
  - intros rs Hrs. rewrite (repr_items_Ok _ _ Hrs).
    cbn [result_map result_bind mret M_ret]. rewrite slice_brackets. reflexivity.
  - intros Hex. rewrite (repr_items_long_int _ Hex). reflexivity.
  - intros c Hc. destruct (py_repr repr_float repr_str c) as [r|e] eqn:Ec;
      [reflexivity|]. apply py_repr_raises in Ec as [Hl _]. destruct (Hc Hl).
Qed.

End Rendered.

Lemma str_renders_witness :
  __str__ (fun _ => "") (fun _ => "") 1%nat [[]; [SInt 0; SInt (-46); SBool true; SNone]]
    = (Ok "<0, -46, True, None>", [[]; [SInt 0; SInt (-46); SBool true; SNone]]) /\
  __str__ (fun _ => "") (fun _ => "") 0%nat [[]; [SInt 0; SInt (-46); SBool true; SNone]]
    = (Ok "<>", [[]; [SInt 0; SInt (-46); SBool true; SNone]]) /\
  __str__ (fun _ => "") (fun _ => "") 0%nat [[SInt 1; SInt (10 ^ 4300)]]
    = (Raise (Exn ValueError Builtin), [[SInt 1; SInt (10 ^ 4300)]]).
Proof.
  split; [|split].
  - apply (proj1 (str_renders (fun _ => "") (fun _ => "")
             [[]; [SInt 0; SInt (-46); SBool true; SNone]] 1%nat
             [SInt 0; SInt (-46); SBool true; SNone] eq_refl)
             ["0"; "-46"; "True"; "None"]).
    repeat constructor.
  - apply (proj1 (str_renders (fun _ => "") (fun _ => "")
             [[]; [SInt 0; SInt (-46); SBool true; SNone]] 0%nat [] eq_refl) []).
    constructor.
  - apply (proj1 (proj2 (str_renders (fun _ => "") (fun _ => "")
             [[SInt 1; SInt (10 ^ 4300)]] 0%nat [SInt 1; SInt (10 ^ 4300)] eq_refl))).
    right. left. exists (10 ^ 4300). split; [reflexivity|].
    apply Nat.ltb_lt. vm_compute. reflexivity.
Defined.

End Render.

(** ** Products of vectors of integers *)

Module Products.
Import Py Vector Spec Run Iteration Algebra Multiplication.

Lemma py_mul_comm_int x y :
  is_int x = true -> is_int y = true ->
  exists p q, py_mul x y = Ok p /\ py_mul y x = Ok q /\ py_eq p q = true.
Proof.
  intros Hx Hy.
  exists (SInt (int_of x * int_of y)), (SInt (int_of y * int_of x)).
  split; [destruct x, y; try discriminate; reflexivity|].
  split; [destruct x, y; try discriminate; reflexivity|].
  apply py_eq_int; [reflexivity|simpl; lia].
Qed.

Lemma mul_comm_lists ca : forall cb,
  Forall (fun c => is_int c = true) ca -> Forall (fun c => is_int c = true) cb ->
  exists ps qs,
    zip_with py_mul ca cb = Ok <$> ps /\ zip_with py_mul cb ca = Ok <$> qs /\
    list_eq ps qs = true.
Proof.
  induction ca as [|x ca IH]; intros [|y cb] Fa Fb;
    try (exists [], []; repeat split; fail).
  apply Forall_cons in Fa as [Hx Fa]. apply Forall_cons in Fb as [Hy Fb].
  destruct (IH cb Fa Fb) as (ps & qs & E1 & E2 & E3).
  destruct (py_mul_comm_int x y Hx Hy) as (p & q & Hp & Hq & He).
  exists (p :: ps), (q :: qs). simpl.
  rewrite Hp, E1, Hq, E2, He, E3. repeat split.
Qed.

(** X23. The product of two vectors of [int]s commutes, whatever the two
    lengths: [u * v == v * u]. *)
Theorem mul_comm_int (h : heap) (u v : loc) (cu cv : list scalar) :
  h !! u = Some cu -> h !! v = Some cv ->
  Forall (fun c => is_int c = true) cu -> Forall (fun c => is_int c = true) cv ->
  exists p h1 q h2,
    __mul__ u (VVec v) h = (Ok p, h1) /\
    __mul__ v (VVec u) h1 = (Ok q, h2) /\
    __eq__ p (VVec q) h2 = (Ok true, h2).
Proof.
  intros Hu Hv Fu Fv.
  destruct (mul_comm_lists cu cv Fu Fv) as (ps & qs & E1 & E2 & E3).
  exists (length h), (h ++ [ps]), (length (h ++ [ps])), ((h ++ [ps]) ++ [qs]).
  split; [|split].
  - rewrite (mul_vectors_run _ _ _ _ _ Hu Hv). apply init_gen_ok, consume_Ok, E1.
  - rewrite (mul_vectors_run (h ++ [ps]) v u cv cu)
      by (apply lookup_app_l_Some; assumption).
    apply init_gen_ok, consume_Ok, E2.
  - rewrite (eq_run _ _ _ ps qs), E3; [reflexivity| |apply alloc_lookup_new].
    apply lookup_app_l_Some, alloc_lookup_new.
Qed.

Lemma mul_comm_int_witness :
  exists p h1 q h2,
    __mul__ 0%nat (VVec 1%nat) [[SInt 0; SInt 46; SInt 69]; [SInt 2; SInt 23]] = (Ok p, h1) /\
    __mul__ 1%nat (VVec 0%nat) h1 = (Ok q, h2) /\
    __eq__ p (VVec q) h2 = (Ok true, h2).
Proof.
  apply (mul_comm_int [[SInt 0; SInt 46; SInt 69]; [SInt 2; SInt 23]] 0%nat 1%nat
           [SInt 0; SInt 46; SInt 69] [SInt 2; SInt 23]);
    [reflexivity|reflexivity|repeat constructor|repeat constructor].
Defined.

End Products.
